(** * DeliverNow admin backend: order lifecycle and data-consistency contract

    A shallow embedding of the Express/Mongoose route handlers and schema
    hooks of the DeliverNow backend, and the properties of the order
    lifecycle stated about them.

    Conventions of the embedding:
    - a JavaScript Number is an IEEE-754 binary64 value ([float]);
    - a Date is its time value, an integral number of milliseconds ([Z]);
      a [Date | null] field is an [option Z];
    - a MongoDB collection is a finite map from the document [_id] to the
      document ([gmap ObjectId Doc]);
    - a route handler is a function from the request and the store to the
      HTTP response and the store it leaves behind;
    - an identifier of a request is a string that Mongoose casts to an
      ObjectId or fails to cast; which strings cast is a matter of the
      driver, and the handlers that look a document up by such an
      identifier, or save one, take it as the parameter [casts]. *)

From Stdlib Require Import ZArith Floats.
From stdpp Require Import gmap strings list fin_maps pretty.

(** ** JavaScript numbers *)

Module JsNumber.

(** [x === 0]: true for both zeros, false for NaN. *)
Definition is_zero (x : float) : bool := PrimFloat.eqb x 0%float.

(** ToBoolean on a Number: [+0], [-0] and [NaN] are falsy. *)
Definition truthy (x : float) : bool := negb (is_zero x) && negb (PrimFloat.is_nan x).

(** [x || d] on Numbers. *)
Definition or_default (x d : float) : float := if truthy x then x else d.

(** The Number of a mathematical integer, rounded to nearest even. *)
Definition of_Z (z : Z) : float := SF2Prim (binary_normalize prec emax z 0 false).

(** Nearest integer to [m * 2^e], a tie going to the larger one. *)
Definition round_half_up (m e : Z) : Z :=
  match e with
  | Zneg p => (2 * m + 2 ^ Zpos p) / 2 ^ (Zpos p + 1)
  | _ => m * 2 ^ e
  end.

(** [Math.round(x)]: the integer closest to [x], a tie going towards
    plus infinity; NaN, the infinities and the zeros are returned as they
    are, and a negative [x] that rounds to zero gives [-0]. *)
Definition Math_round (x : float) : float :=
  match Prim2SF x with
  | S754_finite s m e =>
      let n := round_half_up (if s then Zneg m else Zpos m) e in
      if (n =? 0)%Z then (if s then neg_zero else zero) else of_Z n
  | _ => x
  end.

(** [parseFloat(x.toFixed(1))].  [toFixed(1)] prints the decimal [n / 10]
    closest to [|x|], the larger [n] on a tie, with the sign of [x]; at
    [|x| >= 1e21], and for NaN and the infinities, it prints [x] itself.
    [parseFloat] reads the decimal back as the nearest Number. *)
Definition toFixed1 (x : float) : float :=
  match Prim2SF x with
  | S754_finite s m e =>
      if PrimFloat.leb 1e21%float (PrimFloat.abs x) then x
      else
        match round_half_up (10 * Zpos m) e with
        | Zpos n => SF2Prim (SFdiv prec emax (S754_finite s n 0) (S754_finite false 10 0))
        | _ => SF2Prim (S754_zero s)
        end
  | S754_zero _ => zero
  | _ => x
  end.

(** [Math.max(a, b)]: NaN if either is NaN, and [+0] is larger than [-0]. *)
Definition Math_max (a b : float) : float :=
  if PrimFloat.is_nan a || PrimFloat.is_nan b then nan
  else if PrimFloat.ltb a b then b
  else if PrimFloat.ltb b a then a
  else if PrimFloat.get_sign a then b else a.

End JsNumber.

(** ** routes/dashboard.js *)

Module Dashboard.
Import JsNumber.
Local Open Scope float_scope.

(** [calculatePercentageChange(current, previous)]. *)
Definition calculatePercentageChange (current previous : float) : float :=
  if previous =? 0 then (if 0 <? current then 100 else 0)
  else ((current - previous) / previous) * 100.

(** The eight [countDocuments] results that GET /api/dashboard/stats reads. *)
Record StatsCounts := {
  n_activeDrivers : Z;
  n_activeDriversLastWeek : Z;
  n_activeOrders : Z;
  n_activeOrdersLastWeek : Z;
  n_totalDeliveries : Z;
  n_totalDeliveriesLastWeek : Z;
  n_ongoingDeliveries : Z;
  n_ongoingDeliveriesYesterday : Z
}.

(** The [data] object of the stats response. *)
Record StatsData := {
  activeDrivers : float;
  activeDriversChange : float;
  activeOrders : float;
  activeOrdersChange : float;
  totalDeliveries : float;
  totalDeliveriesChange : float;
  ongoingDeliveries : float;
  ongoingDeliveriesChange : float
}.

Definition stats (c : StatsCounts) : StatsData :=
  let activeDrivers := of_Z (n_activeDrivers c) in
  let activeDriversLastWeek := of_Z (n_activeDriversLastWeek c) in
  let activeDriversChange := calculatePercentageChange activeDrivers activeDriversLastWeek in
  let activeOrders := of_Z (n_activeOrders c) in
  let activeOrdersLastWeek := of_Z (n_activeOrdersLastWeek c) in
  let activeOrdersChange := calculatePercentageChange activeOrders activeOrdersLastWeek in
  let totalDeliveries := of_Z (n_totalDeliveries c) in
  let totalDeliveriesLastWeek := of_Z (n_totalDeliveriesLastWeek c) in
  let totalDeliveriesChange := calculatePercentageChange totalDeliveries totalDeliveriesLastWeek in
  let ongoingDeliveries := of_Z (n_ongoingDeliveries c) in
  let ongoingDeliveriesYesterday := of_Z (n_ongoingDeliveriesYesterday c) in
  let ongoingDeliveriesChange :=
    calculatePercentageChange ongoingDeliveries ongoingDeliveriesYesterday in
  {| activeDrivers := activeDrivers;
     activeDriversChange := toFixed1 activeDriversChange;
     activeOrders := activeOrders;
     activeOrdersChange := toFixed1 activeOrdersChange;
     totalDeliveries := totalDeliveries;
     totalDeliveriesChange := toFixed1 totalDeliveriesChange;
     ongoingDeliveries := ongoingDeliveries;
     ongoingDeliveriesChange := toFixed1 ongoingDeliveriesChange |}.

End Dashboard.

(** ** Documents and collections *)

(** An [ObjectId], as the routes receive it in [req.params] and
    [req.body]: a string. *)
Abbreviation ObjectId := string (only parsing).

(** The response envelope [{ success, message }] with its HTTP status;
    the [data] payload, which no property below reads, is left out. *)
Record Response := {
  code : Z;
  success : bool;
  message : string
}.

Definition json (c : Z) (ok : bool) (msg : string) : Response :=
  {| code := c; success := ok; message := msg |}.

(** [arr.includes(s)] on an array of strings. *)
Definition includes (arr : list string) (s : string) : bool :=
  existsb (String.eqb s) arr.

(** [arr.join(sep)]. *)
Fixpoint join (sep : string) (arr : list string) : string :=
  match arr with
  | [] => ""
  | [s] => s
  | s :: rest => s +:+ sep +:+ join sep rest
  end.

(** models/User.js: the fields the order and account routes read. *)
Module User.
Record t := {
  name : string;
  email : string;
  phone : string;
  userType : string;   (* enum: customer, vendor, driver, admin *)
  isActive : bool
}.
End User.

(** models/Restaurant.js: the fields DELETE /api/restaurants/:id reads. *)
Module Restaurant.
Record t := {
  name : string;
  image : option string;
  coverImage : option string;
  isActive : bool
}.
End Restaurant.

(** models/Delivery.js. *)
Module Delivery.
Import JsNumber.

Record t := {
  order : ObjectId;
  driver : ObjectId;
  status : string;     (* enum: assigned, ongoing, completed, cancelled *)
  startTime : option Z;
  endTime : option Z;
  actualDuration : option float;
  updatedAt : Z
}.

Definition set_status (v : string) (d : t) : t :=
  {| order := order d; driver := driver d; status := v;
     startTime := startTime d; endTime := endTime d;
     actualDuration := actualDuration d; updatedAt := updatedAt d |}.

Definition set_startTime (v : option Z) (d : t) : t :=
  {| order := order d; driver := driver d; status := status d;
     startTime := v; endTime := endTime d;
     actualDuration := actualDuration d; updatedAt := updatedAt d |}.

Definition set_endTime (v : option Z) (d : t) : t :=
  {| order := order d; driver := driver d; status := status d;
     startTime := startTime d; endTime := v;
     actualDuration := actualDuration d; updatedAt := updatedAt d |}.

Definition set_actualDuration (v : option float) (d : t) : t :=
  {| order := order d; driver := driver d; status := status d;
     startTime := startTime d; endTime := endTime d;
     actualDuration := v; updatedAt := updatedAt d |}.

Definition set_updatedAt (v : Z) (d : t) : t :=
  {| order := order d; driver := driver d; status := status d;
     startTime := startTime d; endTime := endTime d;
     actualDuration := actualDuration d; updatedAt := v |}.

(** [endTime - startTime] on two Dates, then the minutes of it:
    [Math.round(durationMs / (1000 * 60))]. *)
Definition durationMinutes (startTime endTime : Z) : float :=
  let durationMs := (of_Z endTime - of_Z startTime)%float in
  Math_round (durationMs / (1000 * 60))%float.

(** [deliverySchema.pre('save')]. *)
Definition pre_save (now : Z) (d : t) : t :=
  let d := set_updatedAt now d in
  match startTime d, endTime d with
  | Some s, Some e => set_actualDuration (Some (durationMinutes s e)) d
  | _, _ => d
  end.

End Delivery.

(** models/MenuItem.js: availability and the stock-tracking sub-object. *)
Module MenuItem.
Import JsNumber.

Record StockManagement := {
  trackStock : bool;
  currentStock : float;
  lowStockThreshold : float;
  isOutOfStock : bool
}.

Record t := {
  name : string;
  restaurant : ObjectId;
  price : float;
  isAvailable : bool;
  stockManagement : StockManagement
}.

Definition set_currentStock (v : float) (s : StockManagement) : StockManagement :=
  {| trackStock := trackStock s; currentStock := v;
     lowStockThreshold := lowStockThreshold s; isOutOfStock := isOutOfStock s |}.

Definition set_isOutOfStock (v : bool) (s : StockManagement) : StockManagement :=
  {| trackStock := trackStock s; currentStock := currentStock s;
     lowStockThreshold := lowStockThreshold s; isOutOfStock := v |}.

Definition set_stockManagement (v : StockManagement) (m : t) : t :=
  {| name := name m; restaurant := restaurant m; price := price m;
     isAvailable := isAvailable m; stockManagement := v |}.

Definition set_isAvailable (v : bool) (m : t) : t :=
  {| name := name m; restaurant := restaurant m; price := price m;
     isAvailable := v; stockManagement := stockManagement m |}.

(** [menuItemSchema.pre('save')]. *)
Definition pre_save (m : t) : t :=
  if trackStock (stockManagement m) then
    if is_zero (currentStock (stockManagement m)) then
      set_isAvailable false
        (set_stockManagement (set_isOutOfStock true (stockManagement m)) m)
    else
      set_stockManagement (set_isOutOfStock false (stockManagement m)) m
  else m.

(** [this.save()]: the document as it is written, after the save hook. *)
Definition save (m : t) : t := pre_save m.

(** [menuItemSchema.methods.updateStock(quantity, operation)]; the result
    is the saved document. *)
Definition updateStock (quantity : float) (operation : string) (m : t) : t :=
  if negb (trackStock (stockManagement m)) then m
  else
    let stock := currentStock (stockManagement m) in
    let stock' :=
      if String.eqb operation "subtract" then Math_max 0 (stock - quantity)
      else if String.eqb operation "add" then (stock + quantity)%float
      else if String.eqb operation "set" then Math_max 0 quantity
      else stock in
    let sm := set_currentStock stock' (stockManagement m) in
    let sm := set_isOutOfStock (is_zero (currentStock sm)) sm in
    let m := set_stockManagement sm m in
    let m := if isOutOfStock (stockManagement m) then set_isAvailable false m else m in
    save m.

End MenuItem.

(** A postal address sub-document. *)
Record Address := {
  street : option string;
  city : option string;
  state : option string;
  zipCode : option string;
  country : option string;
  latitude : option float;
  longitude : option float
}.

(** models/Order.js, the schema of the first orders routes module (with
    [user], [deliveryStatus] and [statusHistory]).  The fields that no
    route of the module writes ([pricing], [estimatedDeliveryTime],
    [actualDeliveryTime], [notes]) and the image fields of an item are
    left out. *)
Module Order.

Record Item := {
  menuItem : option ObjectId;
  name : option string;        (* required *)
  description : option string;
  price : option float;        (* required *)
  quantity : option float;     (* required, default 1 *)
  subtotal : option float;
  category : option string;
  specialInstructions : option string
}.

Record StatusEntry := {
  entry_status : string;
  timestamp : Z
}.

Record t := {
  orderNumber : string;
  user : ObjectId;
  restaurant : ObjectId;
  driver : option ObjectId;
  items : list Item;
  deliveryAddress : option Address;
  status : string;
  deliveryStatus : string;
  paymentMethod : string;
  paymentStatus : string;
  subtotal_ : float;
  deliveryFee : float;
  tax : float;
  totalAmount : float;
  statusHistory : list StatusEntry;
  createdAt : Z;
  updatedAt : Z
}.

Definition statusEnum : list string :=
  ["pending"; "confirmed"; "assigned"; "picked_up"; "in_transit"; "delivered"; "cancelled"].

Definition paymentMethodEnum : list string := ["cash"; "card"; "online"].

(** The schema default of an item: [quantity] is 1 when absent. *)
Definition item_defaults (i : Item) : Item :=
  {| menuItem := menuItem i; name := name i; description := description i;
     price := price i;
     quantity := match quantity i with Some q => Some q | None => Some 1%float end;
     subtotal := subtotal i; category := category i;
     specialInstructions := specialInstructions i |}.

(** The [required] validators of an item: a non-empty [name], a [price]. *)
Definition item_valid (i : Item) : bool :=
  match name i, price i with
  | Some n, Some _ => negb (String.eqb n "")
  | _, _ => false
  end.

(** The cast of an item: its [menuItem], when given, is an ObjectId. *)
Definition item_casts (casts : string -> bool) (i : Item) : bool :=
  match menuItem i with
  | Some m => casts m
  | None => true
  end.

(** Document validation on [save()]: the required paths (the numbers
    among them are always set by the route), the enums, and the casts of
    the ObjectId paths [user], [restaurant] and [items.menuItem], a
    failed cast being reported as a validation error.  [casts] tells
    which strings Mongoose casts to an ObjectId. *)
Definition validate (casts : string -> bool) (o : t) : bool :=
  negb (String.eqb (orderNumber o) "")
  && forallb item_valid (items o)
  && includes statusEnum (status o)
  && includes statusEnum (deliveryStatus o)
  && includes paymentMethodEnum (paymentMethod o)
  && casts (user o)
  && casts (restaurant o)
  && forallb (item_casts casts) (items o).

End Order.

(** models/Order.js, the schema of the second orders routes module and of
    the customers and drivers routes (with [customer], no
    [deliveryStatus]); the fields those routes read or write. *)
Module Order2.

Record t := {
  orderNumber : string;
  customer : ObjectId;
  driver : option ObjectId;
  restaurant : ObjectId;
  status : string;  (* enum: pending, confirmed, picked_up, in_transit, delivered, cancelled *)
  totalAmount : float;
  updatedAt : Z
}.

Definition set_status_updatedAt (s : string) (now : Z) (o : t) : t :=
  {| orderNumber := orderNumber o; customer := customer o;
     driver := driver o; restaurant := restaurant o;
     status := s; totalAmount := totalAmount o; updatedAt := now |}.

End Order2.

(** The database: one collection per model, keyed by [_id] (a document's
    [_id] is its key).  [O] is the Order schema of the routes module at
    hand. *)
Record Db (O : Type) := {
  users : gmap ObjectId User.t;
  orders : gmap ObjectId O;
  deliveries : gmap ObjectId Delivery.t;
  restaurants : gmap ObjectId Restaurant.t
}.
Arguments users {O} _.
Arguments orders {O} _.
Arguments deliveries {O} _.
Arguments restaurants {O} _.

Definition set_users {O} (v : gmap ObjectId User.t) (db : Db O) : Db O :=
  {| users := v; orders := orders db; deliveries := deliveries db;
     restaurants := restaurants db |}.

Definition set_orders {O} (v : gmap ObjectId O) (db : Db O) : Db O :=
  {| users := users db; orders := v; deliveries := deliveries db;
     restaurants := restaurants db |}.

Definition set_deliveries {O} (v : gmap ObjectId Delivery.t) (db : Db O) : Db O :=
  {| users := users db; orders := orders db; deliveries := v;
     restaurants := restaurants db |}.

Definition set_restaurants {O} (v : gmap ObjectId Restaurant.t) (db : Db O) : Db O :=
  {| users := users db; orders := orders db; deliveries := deliveries db;
     restaurants := v |}.

(** [Model.find(query)]: the matching documents, each with its [_id]. *)
Definition find {A} (query : A -> bool) (c : gmap ObjectId A) : list (ObjectId * A) :=
  filter (fun kd => query kd.2 = true) (map_to_list c).

(** [Model.countDocuments(query)]. *)
Definition countDocuments {A} (query : A -> bool) (c : gmap ObjectId A) : nat :=
  length (find query c).

(** [Model.findOne(query)]: the first matching document, if any. *)
Definition findOne {A} (query : A -> bool) (c : gmap ObjectId A) : option (ObjectId * A) :=
  head (find query c).

(** The outcome of [Model.findById(id)] and of the other queries by id,
    which cast [id] to an ObjectId before they look: the document, [null],
    or a thrown CastError when [id] does not cast.  [casts] tells which
    strings Mongoose casts to an ObjectId; a collection holds its
    documents under ObjectIds, so an id that is found is one that
    casts. *)
Inductive Lookup (A : Type) :=
  | Found (d : A)
  | NotFound
  | CastError.
Arguments Found {A} d.
Arguments NotFound {A}.
Arguments CastError {A}.

Definition findById {A} (casts : string -> bool) (id : ObjectId)
    (c : gmap ObjectId A) : Lookup A :=
  match c !! id with
  | Some d => Found d
  | None => if casts id then NotFound else CastError
  end.

(** [!s] on a string that may be absent from the request body. *)
Definition missing (s : option string) : bool :=
  match s with
  | None => true
  | Some s => String.eqb s ""
  end.

(** ** routes/orders.js, first module: create, status, assign-driver *)

Module OrdersRoutes.
Import JsNumber.

(** The body of POST /api/orders. *)
Record CreateBody := {
  user : option ObjectId;
  restaurant : option ObjectId;
  items : option (list Order.Item);
  deliveryAddress : option Address;
  deliveryFee : option float;
  subtotal : option float;
  tax : option float;
  totalAmount : option float;
  paymentMethod : option string
}.

(** [x || 0] on a Number that may be absent from the body. *)
Definition number_or_zero (x : option float) : float :=
  match x with
  | Some v => or_default v 0%float
  | None => 0%float
  end.

(** [`ORD-${Date.now()}-${orderCount + 1}`]. *)
Definition make_orderNumber (now : Z) (orderCount : nat) : string :=
  "ORD-" +:+ pretty now +:+ "-" +:+ pretty (orderCount + 1)%nat.

(** The document that POST /api/orders builds with [new Order({...})]. *)
Definition new_order (now : Z) (orderNumber : string) (u r : ObjectId)
    (its : list Order.Item) (body : CreateBody) : Order.t :=
  {| Order.orderNumber := orderNumber;
     Order.user := u;
     Order.restaurant := r;
     Order.driver := None;
     Order.items := map Order.item_defaults its;
     Order.deliveryAddress := deliveryAddress body;
     Order.status := "pending";
     Order.deliveryStatus := "pending";
     Order.paymentMethod :=
       (if missing (paymentMethod body) then "cash" else default "cash" (paymentMethod body));
     Order.paymentStatus := "pending";
     Order.subtotal_ := number_or_zero (subtotal body);
     Order.deliveryFee := number_or_zero (deliveryFee body);
     Order.tax := number_or_zero (tax body);
     Order.totalAmount := number_or_zero (totalAmount body);
     Order.statusHistory := [];
     Order.createdAt := now;
     Order.updatedAt := now |}.

Section Handlers.

(** Which strings Mongoose casts to an ObjectId. *)
Variable casts : string -> bool.

(** [order.save()] of a new document under the [_id] that Mongoose drew
    for it: validation, then the insert, which the unique indexes on
    [_id] and [orderNumber] can refuse.  [None] is a thrown error. *)
Definition save_new (newId : ObjectId) (o : Order.t) (db : Db Order.t)
    : option (Db Order.t) :=
  if Order.validate casts o
     && bool_decide (orders db !! newId = None)
     && (countDocuments (fun o' => String.eqb (Order.orderNumber o') (Order.orderNumber o))
           (orders db) =? 0)%nat
  then Some (set_orders (<[newId := o]> (orders db)) db)
  else None.

(** POST /api/orders.  Every error thrown inside the handler's [try] is
    answered by its [catch] with 500. *)
Definition createOrder (now : Z) (newId : ObjectId) (body : CreateBody)
    (db : Db Order.t) : Response * Db Order.t :=
  match user body, restaurant body, items body with
  | Some u, Some r, Some its =>
      if String.eqb u "" || String.eqb r "" || (length its =? 0)%nat then
        (json 400 false "User, restaurant, and items are required", db)
      else
        match findById casts u (users db) with
        | CastError => (json 500 false "Failed to create order", db)
        | NotFound => (json 404 false "User not found", db)
        | Found _ =>
            let orderCount := countDocuments (fun _ => true) (orders db) in
            let orderNumber := make_orderNumber now orderCount in
            let order := new_order now orderNumber u r its body in
            match save_new newId order db with
            | Some db' => (json 201 true "Order created successfully", db')
            | None => (json 500 false "Failed to create order", db)
            end
        end
  | _, _, _ => (json 400 false "User, restaurant, and items are required", db)
  end.

Definition validStatuses : list string :=
  ["pending"; "confirmed"; "assigned"; "picked_up"; "in_transit"; "delivered"; "cancelled"].

(** The update document of PUT /api/orders/:id/status:
    [$set: { status, deliveryStatus: status, updatedAt }] and
    [$push: { statusHistory: { status, timestamp } }]. *)
Definition apply_status (status : string) (now : Z) (o : Order.t) : Order.t :=
  {| Order.orderNumber := Order.orderNumber o;
     Order.user := Order.user o;
     Order.restaurant := Order.restaurant o;
     Order.driver := Order.driver o;
     Order.items := Order.items o;
     Order.deliveryAddress := Order.deliveryAddress o;
     Order.status := status;
     Order.deliveryStatus := status;
     Order.paymentMethod := Order.paymentMethod o;
     Order.paymentStatus := Order.paymentStatus o;
     Order.subtotal_ := Order.subtotal_ o;
     Order.deliveryFee := Order.deliveryFee o;
     Order.tax := Order.tax o;
     Order.totalAmount := Order.totalAmount o;
     Order.statusHistory :=
       Order.statusHistory o
       ++ [{| Order.entry_status := status; Order.timestamp := now |}];
     Order.createdAt := Order.createdAt o;
     Order.updatedAt := now |}.

(** PUT /api/orders/:id/status. *)
Definition updateStatus (now : Z) (id : ObjectId) (status : option string)
    (db : Db Order.t) : Response * Db Order.t :=
  match status with
  | None => (json 400 false "Status is required", db)
  | Some status =>
      if String.eqb status "" then (json 400 false "Status is required", db)
      else if negb (includes validStatuses status) then
        (json 400 false
           ("Invalid status. Must be one of: " +:+ join ", " validStatuses), db)
      else
        match findById casts id (orders db) with
        | CastError => (json 500 false "Failed to update order status", db)
        | NotFound => (json 404 false "Order not found", db)
        | Found o =>
            (json 200 true "Order status updated successfully",
             set_orders (<[id := apply_status status now o]> (orders db)) db)
        end
  end.

(** The update document of PUT /api/orders/:id/assign-driver:
    [$set: { driver: driverId, status: 'assigned',
             deliveryStatus: 'assigned', updatedAt }]. *)
Definition apply_driver (driverId : ObjectId) (now : Z) (o : Order.t) : Order.t :=
  {| Order.orderNumber := Order.orderNumber o;
     Order.user := Order.user o;
     Order.restaurant := Order.restaurant o;
     Order.driver := Some driverId;
     Order.items := Order.items o;
     Order.deliveryAddress := Order.deliveryAddress o;
     Order.status := "assigned";
     Order.deliveryStatus := "assigned";
     Order.paymentMethod := Order.paymentMethod o;
     Order.paymentStatus := Order.paymentStatus o;
     Order.subtotal_ := Order.subtotal_ o;
     Order.deliveryFee := Order.deliveryFee o;
     Order.tax := Order.tax o;
     Order.totalAmount := Order.totalAmount o;
     Order.statusHistory := Order.statusHistory o;
     Order.createdAt := Order.createdAt o;
     Order.updatedAt := now |}.

(** PUT /api/orders/:id/assign-driver. *)
Definition assignDriver (now : Z) (id : ObjectId) (driverId : option ObjectId)
    (db : Db Order.t) : Response * Db Order.t :=
  match driverId with
  | None => (json 400 false "Driver ID is required", db)
  | Some driverId =>
      if String.eqb driverId "" then (json 400 false "Driver ID is required", db)
      else
        match findById casts driverId (users db) with
        | CastError => (json 500 false "Failed to assign driver", db)
        | NotFound => (json 404 false "Driver not found", db)
        | Found driver =>
            if negb (String.eqb (User.userType driver) "driver") then
              (json 400 false "User is not a driver", db)
            else
              match findById casts id (orders db) with
              | CastError => (json 500 false "Failed to assign driver", db)
              | NotFound => (json 404 false "Order not found", db)
              | Found o =>
                  (json 200 true "Driver assigned successfully",
                   set_orders (<[id := apply_driver driverId now o]> (orders db)) db)
              end
        end
  end.

(** DELETE /api/orders/:id. *)
Definition deleteOrder (id : ObjectId) (db : Db Order.t) : Response * Db Order.t :=
  match findById casts id (orders db) with
  | CastError => (json 500 false "Failed to delete order", db)
  | NotFound => (json 404 false "Order not found", db)
  | Found _ =>
      (json 200 true "Order deleted successfully",
       set_orders (delete id (orders db)) db)
  end.

(** The requests of the module that write to the store. *)
Inductive Request :=
  | POST_order (newId : ObjectId) (body : CreateBody)
  | PUT_status (id : ObjectId) (status : option string)
  | PUT_assign_driver (id : ObjectId) (driverId : option ObjectId)
  | DELETE_order (id : ObjectId).

Definition handle (now : Z) (r : Request) (db : Db Order.t) : Response * Db Order.t :=
  match r with
  | POST_order newId body => createOrder now newId body db
  | PUT_status id status => updateStatus now id status db
  | PUT_assign_driver id driverId => assignDriver now id driverId db
  | DELETE_order id => deleteOrder id db
  end.

(** A run of the module: timed requests served one after the other. *)
Fixpoint run (rs : list (Z * Request)) (db : Db Order.t) : Db Order.t :=
  match rs with
  | [] => db
  | (now, r) :: rs => run rs (handle now r db).2
  end.

End Handlers.

End OrdersRoutes.

(** ** routes/orders.js, second module: status with Delivery sync *)

Module OrdersRoutes2.

Definition validStatuses : list string :=
  ["pending"; "confirmed"; "picked_up"; "in_transit"; "delivered"; "cancelled"].

(** The "Update delivery status if exists" block, up to the [save()]:
    the Delivery status of the new Order status, and the timestamps. *)
Definition sync_delivery (status : string) (now : Z) (delivery : Delivery.t)
    : Delivery.t :=
  let deliveryStatus := "assigned" in
  let '(deliveryStatus, delivery) :=
    if String.eqb status "delivered" then
      ("completed", Delivery.set_endTime (Some now) delivery)
    else if includes ["picked_up"; "in_transit"] status then
      ("ongoing",
       match Delivery.startTime delivery with
       | None => Delivery.set_startTime (Some now) delivery
       | Some _ => delivery
       end)
    else (deliveryStatus, delivery) in
  Delivery.set_status deliveryStatus delivery.

(** The query [{ order: req.params.id }]. *)
Definition for_order (id : ObjectId) (d : Delivery.t) : bool :=
  String.eqb (Delivery.order d) id.

(** The persistence failures of a request: whether
    [Order.findByIdAndUpdate] throws, and whether [delivery.save()]
    throws.  A write that throws changes nothing. *)
Record Faults := {
  orderWriteFails : bool;
  deliverySaveFails : bool
}.

Definition no_faults : Faults :=
  {| orderWriteFails := false; deliverySaveFails := false |}.

(** PUT /api/orders/:id/status.  Whatever is thrown inside the [try]
    lands in the handler's [catch], which answers 500 and does nothing
    else: the store is the one at the time of the throw. *)
Definition updateStatus (now : Z) (faults : Faults) (id : ObjectId)
    (status : option string) (db : Db Order2.t) : Response * Db Order2.t :=
  if negb (match status with Some s => includes validStatuses s | None => false end) then
    (json 400 false "Invalid status", db)
  else
    let status := default "" status in
    if orderWriteFails faults then (json 500 false "Error updating order", db)
    else
      match orders db !! id with
      | None => (json 404 false "Order not found", db)
      | Some o =>
          let db :=
            set_orders (<[id := Order2.set_status_updatedAt status now o]> (orders db)) db in
          match findOne (for_order id) (deliveries db) with
          | Some (deliveryId, delivery) =>
              let delivery := sync_delivery status now delivery in
              if deliverySaveFails faults then (json 500 false "Error updating order", db)
              else
                (json 200 true "Order status updated successfully",
                 set_deliveries
                   (<[deliveryId := Delivery.pre_save now delivery]> (deliveries db)) db)
          | None => (json 200 true "Order status updated successfully", db)
          end
      end.

End OrdersRoutes2.

(** ** routes/customers.js, routes/drivers.js, routes/restaurants.js: DELETE *)

Module AccountsRoutes.

(** The orders query of DELETE /api/customers/:id. *)
Definition customer_activeOrders (id : ObjectId) (o : Order2.t) : bool :=
  String.eqb (Order2.customer o) id
  && includes ["pending"; "confirmed"; "picked_up"; "in_transit"] (Order2.status o).

(** DELETE /api/customers/:id. *)
Definition deleteCustomer (id : ObjectId) (db : Db Order2.t) : Response * Db Order2.t :=
  match users db !! id with
  | None => (json 404 false "Customer not found", db)
  | Some customer =>
      if negb (String.eqb (User.userType customer) "customer") then
        (json 404 false "Customer not found", db)
      else
        let activeOrders := countDocuments (customer_activeOrders id) (orders db) in
        if (0 <? activeOrders)%nat then
          (json 400 false "Cannot delete customer with active orders", db)
        else
          (json 200 true "Customer deleted successfully",
           set_users (delete id (users db)) db)
  end.

(** The deliveries and orders queries of DELETE /api/drivers/:id. *)
Definition driver_activeDeliveries (id : ObjectId) (d : Delivery.t) : bool :=
  String.eqb (Delivery.driver d) id
  && includes ["assigned"; "ongoing"] (Delivery.status d).

Definition driver_activeOrders (id : ObjectId) (o : Order2.t) : bool :=
  match Order2.driver o with
  | Some d => String.eqb d id
  | None => false
  end
  && includes ["confirmed"; "picked_up"; "in_transit"] (Order2.status o).

(** DELETE /api/drivers/:id. *)
Definition deleteDriver (id : ObjectId) (db : Db Order2.t) : Response * Db Order2.t :=
  match users db !! id with
  | None => (json 404 false "Driver not found", db)
  | Some driver =>
      if negb (String.eqb (User.userType driver) "driver") then
        (json 404 false "Driver not found", db)
      else
        let activeDeliveries := countDocuments (driver_activeDeliveries id) (deliveries db) in
        let activeOrders := countDocuments (driver_activeOrders id) (orders db) in
        if (0 <? activeDeliveries)%nat || (0 <? activeOrders)%nat then
          (json 400 false "Cannot delete driver with active deliveries or orders", db)
        else
          (json 200 true "Driver deleted successfully",
           set_users (delete id (users db)) db)
  end.

(** DELETE /api/restaurants/:id, the same in both restaurants routes
    modules: the image clean-up talks to the object storage only, and its
    errors are caught and logged. *)
Definition deleteRestaurant (id : ObjectId) (db : Db Order2.t) : Response * Db Order2.t :=
  match restaurants db !! id with
  | None => (json 404 false "Restaurant not found", db)
  | Some restaurant =>
      (json 200 true "Restaurant deleted successfully",
       set_restaurants (delete id (restaurants db)) db)
  end.

(** The deletion rule in the words of the specification: the
    non-terminal statuses of an Order and of a Delivery, and the count of
    the documents in such a status that reference an account or a
    restaurant. *)
Definition spec_order_nonterminal (s : string) : bool :=
  includes ["pending"; "confirmed"; "assigned"; "picked_up"; "in_transit"] s.

Definition spec_delivery_nonterminal (s : string) : bool :=
  includes ["assigned"; "ongoing"] s.

Definition spec_order_refers (id : ObjectId) (o : Order2.t) : bool :=
  String.eqb (Order2.customer o) id
  || match Order2.driver o with Some d => String.eqb d id | None => false end
  || String.eqb (Order2.restaurant o) id.

Definition spec_open_references (id : ObjectId) (db : Db Order2.t) : nat :=
  countDocuments (fun o => spec_order_refers id o && spec_order_nonterminal (Order2.status o))
    (orders db)
  + countDocuments
      (fun d => String.eqb (Delivery.driver d) id
                && spec_delivery_nonterminal (Delivery.status d))
      (deliveries db).

End AccountsRoutes.

(** The unique index on [order] of the Delivery schema ("Each order has
    one delivery"). *)
Definition unique_order_index (c : gmap ObjectId Delivery.t) : Prop :=
  forall k1 k2 d1 d2,
    c !! k1 = Some d1 -> c !! k2 = Some d2 ->
    Delivery.order d1 = Delivery.order d2 -> k1 = k2.

(** The Order-to-Delivery table in the words of the specification, where
    both timestamps are set "if unset". *)
Definition spec_sync_delivery (status : string) (now : Z) (delivery : Delivery.t)
    : Delivery.t :=
  if String.eqb status "delivered" then
    Delivery.set_status "completed"
      match Delivery.endTime delivery with
      | None => Delivery.set_endTime (Some now) delivery
      | Some _ => delivery
      end
  else if includes ["picked_up"; "in_transit"] status then
    Delivery.set_status "ongoing"
      match Delivery.startTime delivery with
      | None => Delivery.set_startTime (Some now) delivery
      | Some _ => delivery
      end
  else Delivery.set_status "assigned" delivery.

(** The invariant of the first orders routes module: every Order has its
    [deliveryStatus] equal to its [status]. *)
Definition status_mirrored (db : Db Order.t) : Prop :=
  map_Forall (fun _ o => Order.status o = Order.deliveryStatus o) (orders db).

(** [sum of price * quantity] over the items of an order. *)
Definition items_sum (its : list Order.Item) : float :=
  foldl (fun acc i =>
           match Order.price i, Order.quantity i with
           | Some p, Some q => (acc + p * q)%float
           | _, _ => acc
           end) 0%float its.

(** ** Sample documents and stores *)

Module Examples.

(** An item sold out and then restocked. *)
Definition soldOut : MenuItem.t :=
  {| MenuItem.name := "Margherita"; MenuItem.restaurant := "r1";
     MenuItem.price := 95;
     MenuItem.isAvailable := true;
     MenuItem.stockManagement :=
       {| MenuItem.trackStock := true; MenuItem.currentStock := 0;
          MenuItem.lowStockThreshold := 5; MenuItem.isOutOfStock := false |} |}.

Definition thandi : User.t :=
  {| User.name := "Thandi"; User.email := "thandi@example.com";
     User.phone := "0820000001"; User.userType := "customer";
     User.isActive := true |}.

Definition sipho : User.t :=
  {| User.name := "Sipho"; User.email := "sipho@example.com";
     User.phone := "0820000002"; User.userType := "driver";
     User.isActive := true |}.

Definition store : Restaurant.t :=
  {| Restaurant.name := "Deliver Now Store"; Restaurant.image := None;
     Restaurant.coverImage := None; Restaurant.isActive := true |}.

(** An order of the second schema, for customer [c1], restaurant [r1]. *)
Definition order2 (driver : option ObjectId) (status : string) : Order2.t :=
  {| Order2.orderNumber := "ORD-1"; Order2.customer := "c1";
     Order2.driver := driver; Order2.restaurant := "r1";
     Order2.status := status; Order2.totalAmount := 50;
     Order2.updatedAt := 0 |}.

(** The delivery of order [o1] by driver [d1]. *)
Definition delivery (status : string) (startTime endTime : option Z) : Delivery.t :=
  {| Delivery.order := "o1"; Delivery.driver := "d1";
     Delivery.status := status;
     Delivery.startTime := startTime; Delivery.endTime := endTime;
     Delivery.actualDuration := None; Delivery.updatedAt := 0 |}.

Definition accounts : gmap ObjectId User.t :=
  <["c1" := thandi]> (<["d1" := sipho]> ∅).

(** A store with order [o1] in the given status and its delivery. *)
Definition db2 (o : Order2.t) (d : Delivery.t) : Db Order2.t :=
  {| users := accounts;
     orders := <["o1" := o]> ∅;
     deliveries := <["dl1" := d]> ∅;
     restaurants := <["r1" := store]> ∅ |}.

(** A Delivery that already has an end time, its order still in transit. *)
Definition redelivered : Db Order2.t :=
  db2 (order2 (Some "d1") "in_transit")
    (delivery "completed" (Some 1000%Z) (Some 2000%Z)).

(** The ObjectIds of the samples of the routes that model the cast, in
    the 24-character hexadecimal form in which the API hands them out:
    a customer, two drivers, a restaurant, orders, menu items, and ids
    of the same form under which nothing is stored. *)
Definition c1_id : ObjectId := "64f1a2b3c4d5e6f708090c01".
Definition d1_id : ObjectId := "64f1a2b3c4d5e6f708090d01".
Definition d2_id : ObjectId := "64f1a2b3c4d5e6f708090d02".
Definition r1_id : ObjectId := "64f1a2b3c4d5e6f708090e01".
Definition o1_id : ObjectId := "64f1a2b3c4d5e6f708090a01".
Definition o2_id : ObjectId := "64f1a2b3c4d5e6f708090a02".
Definition o3_id : ObjectId := "64f1a2b3c4d5e6f708090a03".
Definition m1_id : ObjectId := "64f1a2b3c4d5e6f708090b01".
Definition m2_id : ObjectId := "64f1a2b3c4d5e6f708090b02".


(** The cast of the samples: the strings of 24 hexadecimal digits. *)
Definition is_hex (a : Ascii.ascii) : bool :=
  let n := Ascii.nat_of_ascii a in
  ((48 <=? n) && (n <=? 57) || (97 <=? n) && (n <=? 102)
   || (65 <=? n) && (n <=? 70))%nat.

Definition hex24 (s : string) : bool :=
  (String.length s =? 24)%nat && forallb is_hex (String.list_ascii_of_string s).

(** Three items worth 10, 20 and 15. *)
Definition item (name : string) (price quantity : float) : Order.Item :=
  {| Order.menuItem := None; Order.name := Some name;
     Order.description := None; Order.price := Some price;
     Order.quantity := Some quantity; Order.subtotal := None;
     Order.category := None; Order.specialInstructions := None |}.

Definition basket : list Order.Item :=
  [item "Bunny chow" 10 1; item "Gatsby" 10 2; item "Koeksister" 5 3].

(** A request for the basket with a total of 50. *)
Definition basketBody : OrdersRoutes.CreateBody :=
  {| OrdersRoutes.user := Some c1_id;
     OrdersRoutes.restaurant := Some r1_id;
     OrdersRoutes.items := Some basket;
     OrdersRoutes.deliveryAddress := None;
     OrdersRoutes.deliveryFee := None;
     OrdersRoutes.subtotal := None;
     OrdersRoutes.tax := None;
     OrdersRoutes.totalAmount := Some 50%float;
     OrdersRoutes.paymentMethod := None |}.

(** A store of the first orders routes module with no order yet. *)
Definition db1 : Db Order.t :=
  {| users := <[c1_id := thandi]> (<[d1_id := sipho]> ∅);
     orders := ∅; deliveries := ∅;
     restaurants := <[r1_id := store]> ∅ |}.

(** The store after the basket was ordered at time 1700000000000. *)
Definition db1_ordered : Db Order.t :=
  (OrdersRoutes.createOrder hex24 1700000000000 o1_id basketBody db1).2.

(** Order [o1] of restaurant [r1] is pending, driver [d1] is named on it,
    and its Delivery is over. *)
Definition pendingOrder : Db Order2.t :=
  db2 (order2 (Some "d1") "pending")
    (delivery "completed" (Some 1000%Z) (Some 2000%Z)).

(** The Order write goes through and the Delivery save throws. *)
Definition saveFails : OrdersRoutes2.Faults :=
  {| OrdersRoutes2.orderWriteFails := false;
     OrdersRoutes2.deliverySaveFails := true |}.

End Examples.

(** ** Further routes and model methods *)

(** models/MenuItem.js: the two stock virtuals. *)
Module MenuItemVirtuals.
Import MenuItem.

(** [menuItemSchema.virtual('isActuallyAvailable')]. *)
Definition isActuallyAvailable (m : t) : bool :=
  if negb (isAvailable m) then false
  else if trackStock (stockManagement m) then
    negb (isOutOfStock (stockManagement m))
    && PrimFloat.ltb 0 (currentStock (stockManagement m))
  else true.

(** [menuItemSchema.virtual('isLowStock')]. *)
Definition isLowStock (m : t) : bool :=
  if negb (trackStock (stockManagement m)) then false
  else
    PrimFloat.ltb 0 (currentStock (stockManagement m))
    && PrimFloat.leb (currentStock (stockManagement m))
         (lowStockThreshold (stockManagement m)).

End MenuItemVirtuals.

(** routes/menu.js: toggle-availability and DELETE, on the collection of
    menu items.  [casts] tells which strings Mongoose casts to an
    ObjectId, and [saveFails] whether [menuItem.save()] throws (a
    validation or a persistence error); the [catch] answers 500 to
    whatever is thrown. *)
Module MenuRoutes.

(** PATCH /api/menu/:id/toggle-availability. *)
Definition toggleAvailability (casts : string -> bool) (saveFails : bool)
    (id : ObjectId) (menu : gmap ObjectId MenuItem.t)
    : Response * gmap ObjectId MenuItem.t :=
  match findById casts id menu with
  | CastError => (json 500 false "Failed to toggle availability", menu)
  | NotFound => (json 404 false "Menu item not found", menu)
  | Found menuItem =>
      let menuItem :=
        MenuItem.set_isAvailable (negb (MenuItem.isAvailable menuItem)) menuItem in
      if saveFails then (json 500 false "Failed to toggle availability", menu)
      else
        let menuItem := MenuItem.save menuItem in
        (json 200 true
           ("Menu item "
            +:+ (if MenuItem.isAvailable menuItem then "made available"
                 else "marked unavailable")),
         <[id := menuItem]> menu)
  end.

(** DELETE /api/menu/:id; the image clean-up talks to the object storage
    only, and its errors are caught and logged. *)
Definition deleteMenuItem (casts : string -> bool) (id : ObjectId)
    (menu : gmap ObjectId MenuItem.t) : Response * gmap ObjectId MenuItem.t :=
  match findById casts id menu with
  | CastError => (json 500 false "Failed to delete menu item", menu)
  | NotFound => (json 404 false "Menu item not found", menu)
  | Found _ => (json 200 true "Menu item deleted successfully", delete id menu)
  end.

End MenuRoutes.

(** routes/restaurants.js: PATCH /api/restaurants/:id/toggle-status, the
    same in both restaurants routes modules.  The document is saved with
    [validateBeforeSave: false]; [casts] tells which strings Mongoose
    casts to an ObjectId, and the [catch] answers 500 to a failed cast. *)
Module RestaurantsRoutes.



End RestaurantsRoutes.

(** routes/orders.js, second module: what GET /api/orders/:id reports as
    [deliveryStatus], and runs of status updates. *)
Module OrdersReads2.
Import OrdersRoutes2.

(** [delivery?.status || order.status] of GET /api/orders/:id; [None] is
    the 404 of a missing Order. *)
Definition reported_deliveryStatus (id : ObjectId) (db : Db Order2.t) : option string :=
  match orders db !! id with
  | None => None
  | Some order =>
      Some match findOne (for_order id) (deliveries db) with
           | Some (_, delivery) =>
               if String.eqb (Delivery.status delivery) "" then Order2.status order
               else Delivery.status delivery
           | None => Order2.status order
           end
  end.

(** A PUT /api/orders/:id/status request with its time and its faults. *)
Record StatusRequest := {
  at_time : Z;
  faults : Faults;
  order_id : ObjectId;
  new_status : option string
}.

(** Status requests served one after the other. *)
Fixpoint run (rs : list StatusRequest) (db : Db Order2.t) : Db Order2.t :=
  match rs with
  | [] => db
  | r :: rs =>
      run rs (updateStatus (at_time r) (faults r) (order_id r) (new_status r) db).2
  end.

End OrdersReads2.

(** routes/customers.js and routes/drivers.js: the order and delivery
    counts that the GET routes attach to a customer and to a driver. *)
Module AccountStats.

(** [Order.countDocuments({ customer })]. *)
Definition totalOrders (id : ObjectId) (c : gmap ObjectId Order2.t) : nat :=
  countDocuments (fun o => String.eqb (Order2.customer o) id) c.

(** [Order.countDocuments({ customer, status: 'delivered' })]. *)
Definition completedOrders (id : ObjectId) (c : gmap ObjectId Order2.t) : nat :=
  countDocuments
    (fun o => String.eqb (Order2.customer o) id && String.eqb (Order2.status o) "delivered") c.

(** [Order.countDocuments({ customer, status: { $in: [...] } })]. *)
Definition activeOrders (id : ObjectId) (c : gmap ObjectId Order2.t) : nat :=
  countDocuments
    (fun o => String.eqb (Order2.customer o) id
              && includes ["pending"; "confirmed"; "picked_up"; "in_transit"]
                   (Order2.status o)) c.

(** [Order.countDocuments({ customer, status: 'cancelled' })]. *)
Definition cancelledOrders (id : ObjectId) (c : gmap ObjectId Order2.t) : nat :=
  countDocuments
    (fun o => String.eqb (Order2.customer o) id && String.eqb (Order2.status o) "cancelled") c.

(** [a || b] on two counts. *)
Definition count_or (a b : nat) : nat := if (a =? 0)%nat then b else a.

(** The three counts of a driver in GET /api/drivers. *)
Definition driver_completedDeliveries (id : ObjectId) (c : gmap ObjectId Delivery.t) : nat :=
  countDocuments
    (fun d => String.eqb (Delivery.driver d) id && String.eqb (Delivery.status d) "completed")
    c.

Definition driver_completedOrders (id : ObjectId) (c : gmap ObjectId Order2.t) : nat :=
  countDocuments
    (fun o => match Order2.driver o with Some d => String.eqb d id | None => false end
              && String.eqb (Order2.status o) "delivered") c.

(** [totalDeliveries: completedOrders || completedDeliveries || 0]. *)
Definition reported_totalDeliveries (id : ObjectId) (db : Db Order2.t) : nat :=
  count_or (count_or (driver_completedOrders id (orders db))
              (driver_completedDeliveries id (deliveries db))) 0.

(** [completedDeliveries: completedDeliveries || completedOrders || 0]. *)
Definition reported_completedDeliveries (id : ObjectId) (db : Db Order2.t) : nat :=
  count_or (count_or (driver_completedDeliveries id (deliveries db))
              (driver_completedOrders id (orders db))) 0.

(** The status enum of the Order schema of these routes. *)
Definition statusEnum : list string :=
  ["pending"; "confirmed"; "picked_up"; "in_transit"; "delivered"; "cancelled"].

End AccountStats.

(** What a request may change in a document that it finds and leaves in
    the store. *)
Module Evolution.

(** A Delivery keeps its order and its driver, and a start time once set. *)
Definition delivery_evolves (d d' : Delivery.t) : Prop :=
  Delivery.order d' = Delivery.order d
  /\ Delivery.driver d' = Delivery.driver d
  /\ forall s, Delivery.startTime d = Some s -> Delivery.startTime d' = Some s.

(** An Order of the second schema keeps all but its status and
    [updatedAt]. *)
Definition order2_evolves (o o' : Order2.t) : Prop :=
  Order2.orderNumber o' = Order2.orderNumber o
  /\ Order2.customer o' = Order2.customer o
  /\ Order2.driver o' = Order2.driver o
  /\ Order2.restaurant o' = Order2.restaurant o
  /\ Order2.totalAmount o' = Order2.totalAmount o.


(** The duration of a Delivery agrees with its two timestamps. *)
Definition duration_consistent (d : Delivery.t) : Prop :=
  forall s e,
    Delivery.startTime d = Some s -> Delivery.endTime d = Some e ->
    Delivery.actualDuration d = Some (Delivery.durationMinutes s e).

End Evolution.

(** Further sample documents. *)
Module MoreExamples.
Import Examples.

(** A menu with the sold-out item and an item whose stock is not tracked. *)
Definition untracked : MenuItem.t :=
  {| MenuItem.name := "Rooibos"; MenuItem.restaurant := "r1";
     MenuItem.price := 25;
     MenuItem.isAvailable := true;
     MenuItem.stockManagement :=
       {| MenuItem.trackStock := false; MenuItem.currentStock := 0;
          MenuItem.lowStockThreshold := 5; MenuItem.isOutOfStock := false |} |}.

Definition menu : gmap ObjectId MenuItem.t :=
  <[m1_id := soldOut]> (<[m2_id := untracked]> ∅).

(** An item with 3 in stock. *)
Definition inStock : MenuItem.t :=
  {| MenuItem.name := "Vetkoek"; MenuItem.restaurant := "r1";
     MenuItem.price := 30;
     MenuItem.isAvailable := true;
     MenuItem.stockManagement :=
       {| MenuItem.trackStock := true; MenuItem.currentStock := 3;
          MenuItem.lowStockThreshold := 5; MenuItem.isOutOfStock := false |} |}.

(** Order [o1] confirmed, its Delivery assigned and not yet started. *)
Definition confirmed : Db Order2.t :=
  db2 (order2 (Some "d1") "confirmed") (delivery "assigned" None None).

(** Order [o1] delivered, its Delivery completed. *)
Definition delivered : Db Order2.t :=
  db2 (order2 (Some "d1") "delivered")
    (delivery "completed" (Some 1000%Z) (Some 2000%Z)).


(** Order [o1] with no Delivery. *)
Definition undelivered : Db Order2.t :=
  {| users := accounts;
     orders := <["o1" := order2 None "pending"]> ∅;
     deliveries := ∅;
     restaurants := <["r1" := store]> ∅ |}.

(** A request for the basket with no total. *)
Definition bareBody : OrdersRoutes.CreateBody :=
  {| OrdersRoutes.user := Some c1_id;
     OrdersRoutes.restaurant := Some r1_id;
     OrdersRoutes.items := Some basket;
     OrdersRoutes.deliveryAddress := None;
     OrdersRoutes.deliveryFee := None;
     OrdersRoutes.subtotal := None;
     OrdersRoutes.tax := None;
     OrdersRoutes.totalAmount := None;
     OrdersRoutes.paymentMethod := None |}.



(** A second driver. *)
Definition lerato : User.t :=
  {| User.name := "Lerato"; User.email := "lerato@example.com";
     User.phone := "0820000003"; User.userType := "driver";
     User.isActive := true |}.

(** The store of the ordered basket, with the second driver. *)
Definition db1_two_drivers : Db Order.t :=
  set_users (<[d2_id := lerato]> (users db1_ordered)) db1_ordered.

(** Two baskets ordered in the same millisecond, the first then deleted:
    one order is left, numbered 2. *)
Definition db1_first_deleted : Db Order.t :=
  (OrdersRoutes.deleteOrder hex24 o1_id
     (OrdersRoutes.createOrder hex24 1700000000000 o2_id basketBody db1_ordered).2).2.

End MoreExamples.

(** * Properties *)

(** ** Facts about JavaScript numbers *)

Module NumberFacts.
Import JsNumber.

Lemma Prim2SF_zero : Prim2SF 0%float = S754_zero false.
Proof. reflexivity. Qed.

(** [x === 0] holds exactly for the two zeros. *)
Lemma is_zero_true (x : float) :
  is_zero x = true -> exists s, Prim2SF x = S754_zero s.
Proof.
  unfold is_zero. rewrite FloatAxioms.eqb_spec, Prim2SF_zero.
  unfold SFeqb, SFcompare.
  destruct (Prim2SF x) as [s | s | | s m e]; try discriminate.
  - eauto.
  - destruct s; discriminate.
  - destruct s; discriminate.
Qed.

Lemma is_zero_cases (x : float) :
  is_zero x = true -> x = zero \/ x = neg_zero.
Proof.
  intros [s Hs]%is_zero_true.
  destruct s; [right | left]; apply Prim2SF_inj; rewrite Hs; reflexivity.
Qed.

(** A positive number is not zero, and a zero is not positive. *)
Lemma pos_not_zero (x : float) :
  PrimFloat.ltb 0%float x = true -> is_zero x = false.
Proof.
  unfold is_zero.
  rewrite FloatAxioms.ltb_spec, FloatAxioms.eqb_spec, Prim2SF_zero.
  unfold SFltb, SFeqb, SFcompare.
  destruct (Prim2SF x) as [s | s | | s m e]; try discriminate; try reflexivity.
  - destruct s; reflexivity.
  - destruct s; reflexivity.
Qed.

Lemma zero_not_pos (x : float) :
  is_zero x = true -> PrimFloat.ltb 0%float x = false.
Proof.
  intros Hz. destruct (PrimFloat.ltb 0%float x) eqn:Hlt; [|reflexivity].
  apply pos_not_zero in Hlt. congruence.
Qed.

(** [x || 0] is [x] again, up to the sign of zero, unless [x] is NaN. *)
Lemma or_default_zero (x : float) :
  PrimFloat.is_nan x = false ->
  or_default x 0%float = x \/ (x = neg_zero /\ or_default x 0%float = zero).
Proof.
  intros Hnan. unfold or_default, truthy. rewrite Hnan.
  destruct (is_zero x) eqn:Hz; simpl; [|now left].
  destruct (is_zero_cases x Hz) as [-> | ->]; [left | right]; auto.
Qed.

(** A NaN is not zero. *)
Lemma is_zero_not_nan (x : float) :
  is_zero x = true -> PrimFloat.is_nan x = false.
Proof.
  intros [-> | ->]%is_zero_cases; reflexivity.
Qed.

End NumberFacts.

(** ** Dashboard: percentage change *)

Module DashboardFacts.
Import JsNumber Dashboard NumberFacts.
Local Open Scope float_scope.

Lemma change_zero_zero (current previous : float) :
  (previous =? 0) = true -> (current =? 0) = true ->
  calculatePercentageChange current previous = 0.
Proof.
  intros Hp Hc. unfold calculatePercentageChange. rewrite Hp.
  now rewrite (zero_not_pos current Hc).
Qed.

Lemma change_zero_pos (current previous : float) :
  (previous =? 0) = true -> (0 <? current) = true ->
  calculatePercentageChange current previous = 100.
Proof.
  intros Hp Hc. unfold calculatePercentageChange. now rewrite Hp, Hc.
Qed.

Lemma change_nonzero (current previous : float) :
  (previous =? 0) = false ->
  calculatePercentageChange current previous
  = ((current - previous) / previous) * 100.
Proof.
  intros Hp. unfold calculatePercentageChange. now rewrite Hp.
Qed.

(** Each change of the stats response is the rounded percentage change of
    its two counts; the counts themselves go out as they are. *)
Lemma stats_rounds_for_display (c : StatsCounts) :
  activeDriversChange (stats c)
  = toFixed1 (calculatePercentageChange
                (of_Z (n_activeDrivers c)) (of_Z (n_activeDriversLastWeek c)))
  /\ activeOrdersChange (stats c)
     = toFixed1 (calculatePercentageChange
                   (of_Z (n_activeOrders c)) (of_Z (n_activeOrdersLastWeek c)))
  /\ totalDeliveriesChange (stats c)
     = toFixed1 (calculatePercentageChange
                   (of_Z (n_totalDeliveries c)) (of_Z (n_totalDeliveriesLastWeek c)))
  /\ ongoingDeliveriesChange (stats c)
     = toFixed1 (calculatePercentageChange
                   (of_Z (n_ongoingDeliveries c)) (of_Z (n_ongoingDeliveriesYesterday c))).
Proof. repeat split. Qed.

(** C5: [calculatePercentageChange(current, previous)] is 0 when both are
    zero, 100 when [previous] is zero and [current] positive, and
    [(current - previous) / previous * 100] when [previous] is not zero,
    so 0 at (0,0), 100 at (5,0), 50 at (15,10) and -50 at (5,10).  The
    function itself does not round (at (1,3) it gives -66.66666666666666,
    which the one-decimal rounding changes to -66.7); the rounding is applied
    by the stats response, to each of its four changes. *)
Theorem calculatePercentageChange_spec :
  (forall current previous,
      (previous =? 0) = true -> (current =? 0) = true ->
      calculatePercentageChange current previous = 0)
  /\ (forall current previous,
      (previous =? 0) = true -> (0 <? current) = true ->
      calculatePercentageChange current previous = 100)
  /\ (forall current previous,
      (previous =? 0) = false ->
      calculatePercentageChange current previous
      = ((current - previous) / previous) * 100)
  /\ calculatePercentageChange 0 0 = 0
  /\ calculatePercentageChange 5 0 = 100
  /\ calculatePercentageChange 15 10 = 50
  /\ calculatePercentageChange 5 10 = -50
  /\ toFixed1 (calculatePercentageChange 1 3) = -667 / 10
  /\ calculatePercentageChange 1 3 <> toFixed1 (calculatePercentageChange 1 3)
  /\ (forall c : StatsCounts,
      activeDriversChange (stats c)
      = toFixed1 (calculatePercentageChange
                    (of_Z (n_activeDrivers c)) (of_Z (n_activeDriversLastWeek c)))
      /\ activeOrdersChange (stats c)
         = toFixed1 (calculatePercentageChange
                       (of_Z (n_activeOrders c)) (of_Z (n_activeOrdersLastWeek c)))
      /\ totalDeliveriesChange (stats c)
         = toFixed1 (calculatePercentageChange
                       (of_Z (n_totalDeliveries c)) (of_Z (n_totalDeliveriesLastWeek c)))
      /\ ongoingDeliveriesChange (stats c)
         = toFixed1 (calculatePercentageChange
                       (of_Z (n_ongoingDeliveries c))
                       (of_Z (n_ongoingDeliveriesYesterday c)))).
Proof.
  split; [exact change_zero_zero|].
  split; [exact change_zero_pos|].
  split; [exact change_nonzero|].
  do 5 (split; [vm_compute; reflexivity|]).
  split; [|exact stats_rounds_for_display].
  intros H. apply (f_equal Prim2SF) in H. vm_compute in H. discriminate H.
Qed.

(** The three cases at -0 and 0, at 0 and 7, and at 4 and 8. *)
Lemma calculatePercentageChange_spec_witness :
  calculatePercentageChange (-0) 0 = 0
  /\ calculatePercentageChange 7 0 = 100
  /\ calculatePercentageChange 8 4 = ((8 - 4) / 4) * 100.
Proof.
  destruct calculatePercentageChange_spec as (H00 & H0p & Hnz & _).
  split; [apply H00; reflexivity|].
  split; [apply H0p; reflexivity|].
  apply Hnz; reflexivity.
Defined.

End DashboardFacts.

(** ** MenuItem: the stock cascade of the save path *)

Module MenuItemFacts.
Import JsNumber MenuItem NumberFacts Examples.

(** The save hook touches nothing when stock is not tracked. *)
Lemma pre_save_untracked (m : t) :
  trackStock (stockManagement m) = false -> pre_save m = m.
Proof. intros H. unfold pre_save. now rewrite H. Qed.

(** The save hook never turns availability on. *)
Lemma pre_save_available (m : t) :
  isAvailable (pre_save m) = true -> isAvailable m = true.
Proof.
  unfold pre_save.
  destruct (trackStock (stockManagement m)); [|auto].
  destruct (is_zero (currentStock (stockManagement m))); simpl; [discriminate|auto].
Qed.

(** Nor does [updateStock], whatever the operation. *)
Lemma updateStock_available (quantity : float) (operation : string) (m : t) :
  isAvailable (updateStock quantity operation m) = true -> isAvailable m = true.
Proof.
  unfold updateStock, save.
  destruct (trackStock (stockManagement m)); simpl; [|auto].
  intros H%pre_save_available. revert H. simpl.
  match goal with |- context [if ?b then _ else _] => destruct b end; simpl; auto.
  discriminate.
Qed.

(** C9: on a save of a MenuItem that tracks its stock, a stock of zero
    sets [isOutOfStock] and forces [isAvailable] to false; a positive
    stock clears [isOutOfStock] and leaves [isAvailable] as it was.  The
    save path never sets [isAvailable] back to true: an item that is
    available after [save] or after [updateStock] (restocking included)
    was available before. *)
Theorem stock_cascade_one_way (m : t) :
  trackStock (stockManagement m) = true ->
  (is_zero (currentStock (stockManagement m)) = true ->
     isOutOfStock (stockManagement (save m)) = true
     /\ isAvailable (save m) = false)
  /\ (PrimFloat.ltb 0 (currentStock (stockManagement m)) = true ->
     isOutOfStock (stockManagement (save m)) = false
     /\ isAvailable (save m) = isAvailable m)
  /\ (isAvailable (save m) = true -> isAvailable m = true)
  /\ (forall quantity operation,
     isAvailable (updateStock quantity operation m) = true -> isAvailable m = true).
Proof.
  intros Htrack. unfold save.
  split; [|split; [|split]].
  - intros Hz. unfold pre_save. rewrite Htrack, Hz. now simpl.
  - intros Hpos. unfold pre_save. rewrite Htrack, (pos_not_zero _ Hpos). now simpl.
  - apply pre_save_available.
  - intros quantity operation. apply updateStock_available.
Qed.

Lemma stock_cascade_one_way_witness :
  isOutOfStock (stockManagement (save soldOut)) = true
  /\ isAvailable (save soldOut) = false
  /\ isOutOfStock (stockManagement (updateStock 12 "add" (save soldOut))) = false
  /\ isAvailable (updateStock 12 "add" (save soldOut)) = false.
Proof.
  destruct (stock_cascade_one_way soldOut eq_refl) as (Hzero & _).
  destruct (Hzero eq_refl) as [Hout Hav].
  split; [exact Hout|]. split; [exact Hav|].
  destruct (stock_cascade_one_way (save soldOut) eq_refl) as (_ & _ & _ & Hup).
  split; [reflexivity|].
  destruct (isAvailable (updateStock 12 "add" (save soldOut))) eqn:E; [|reflexivity].
  rewrite <- Hav. symmetry. exact (Hup _ _ E).
Defined.

End MenuItemFacts.

(** ** Queries on a collection *)

Module QueryFacts.

Section Queries.
Context {A : Type}.
Implicit Types (query : A -> bool) (c : gmap ObjectId A) (k : ObjectId) (d : A).

Lemma elem_of_find query c k d :
  (k, d) ∈ find query c <-> c !! k = Some d /\ query d = true.
Proof.
  unfold find. rewrite list_elem_of_filter, elem_of_map_to_list. simpl. tauto.
Qed.

Lemma findOne_Some query c k d :
  findOne query c = Some (k, d) -> c !! k = Some d /\ query d = true.
Proof.
  unfold findOne. intros H%head_Some_elem_of. now apply elem_of_find.
Qed.

Lemma findOne_None query c k d :
  findOne query c = None -> c !! k = Some d -> query d = false.
Proof.
  unfold findOne. intros Hnil%head_None Hk.
  destruct (query d) eqn:Hq; [|reflexivity].
  assert (Hin : (k, d) ∈ find query c) by now apply elem_of_find.
  rewrite Hnil in Hin. now apply not_elem_of_nil in Hin.
Qed.

(** A query that some document satisfies finds a document. *)
Lemma findOne_exists query c k d :
  c !! k = Some d -> query d = true ->
  exists k' d', findOne query c = Some (k', d').
Proof.
  intros Hk Hq. destruct (findOne query c) as [[k' d']|] eqn:E; [eauto|].
  rewrite (findOne_None _ _ _ _ E Hk) in Hq. discriminate.
Qed.

Lemma countDocuments_pos query c :
  (0 < countDocuments query c)%nat <-> exists k d, c !! k = Some d /\ query d = true.
Proof.
  unfold countDocuments. split.
  - destruct (find query c) as [|[k d] l] eqn:E; simpl; [lia|].
    intros _. exists k, d. apply elem_of_find. rewrite E. left.
  - intros (k & d & Hin%elem_of_find).
    destruct (find query c); [now apply not_elem_of_nil in Hin | simpl; lia].
Qed.

Lemma countDocuments_zero query c :
  countDocuments query c = 0%nat <-> forall k d, c !! k = Some d -> query d = false.
Proof.
  split.
  - intros H0 k d Hk. destruct (query d) eqn:Hq; [|reflexivity].
    assert (0 < countDocuments query c)%nat by (apply countDocuments_pos; eauto).
    lia.
  - intros Hall. destruct (countDocuments query c) eqn:E; [reflexivity|].
    assert (Hpos : (0 < countDocuments query c)%nat) by lia.
    apply countDocuments_pos in Hpos as (k & d & Hk & Hq).
    rewrite (Hall k d Hk) in Hq. discriminate.
Qed.
End Queries.

Lemma includes_In (arr : list string) (s : string) :
  includes arr s = true <-> In s arr.
Proof.
  unfold includes. rewrite existsb_exists. split.
  - intros (x & Hin & ->%String.eqb_eq). exact Hin.
  - intros Hin. exists s. split; [exact Hin | apply String.eqb_refl].
Qed.

(** A query by id finds what is stored under the id. *)
Lemma findById_found {A} casts id (c : gmap ObjectId A) d :
  c !! id = Some d -> findById casts id c = Found d.
Proof. unfold findById. now intros ->. Qed.


End QueryFacts.

(** ** Order status transition with Delivery synchronisation *)

Module StatusSyncFacts.
Import JsNumber OrdersRoutes2 QueryFacts Examples.
Local Open Scope Z_scope.

(** Under the unique index, the Delivery of an order is the one that
    [findOne({ order })] returns. *)
Lemma findOne_unique (c : gmap ObjectId Delivery.t) id k d :
  unique_order_index c ->
  c !! k = Some d -> Delivery.order d = id ->
  findOne (for_order id) c = Some (k, d).
Proof.
  intros Huniq Hk Hid.
  destruct (findOne_exists (for_order id) c k d Hk) as (k' & d' & Hfound).
  { unfold for_order. rewrite Hid. apply String.eqb_refl. }
  destruct (findOne_Some _ _ _ _ Hfound) as [Hk' Hq%String.eqb_eq].
  assert (k' = k) by (eapply Huniq; eauto; congruence). subst k'.
  rewrite Hfound. congruence.
Qed.

Lemma unique_order_index_singleton k d :
  unique_order_index (<[k := d]> ∅).
Proof.
  intros k1 k2 d1 d2 H1 H2 _.
  apply lookup_insert_Some in H1 as [[<- _] | [_ H1]]; [|now rewrite lookup_empty in H1].
  apply lookup_insert_Some in H2 as [[<- _] | [_ H2]]; [|now rewrite lookup_empty in H2].
  reflexivity.
Qed.

(** The handler on an accepted status, an existing order and its
    Delivery: the order write, then the Delivery save unless it throws. *)
Lemma updateStatus_with_delivery now faults id status db o k d :
  orderWriteFails faults = false ->
  unique_order_index (deliveries db) ->
  includes validStatuses status = true ->
  orders db !! id = Some o ->
  deliveries db !! k = Some d -> Delivery.order d = id ->
  updateStatus now faults id (Some status) db
  = let db1 :=
      set_orders (<[id := Order2.set_status_updatedAt status now o]> (orders db)) db in
    if deliverySaveFails faults then (json 500 false "Error updating order", db1)
    else (json 200 true "Order status updated successfully",
          set_deliveries
            (<[k := Delivery.pre_save now (sync_delivery status now d)]> (deliveries db))
            db1).
Proof.
  intros Hwrite Huniq Hvalid Ho Hk Hid. unfold updateStatus.
  rewrite Hvalid, Hwrite. simpl. rewrite Ho.
  rewrite (findOne_unique _ id k d Huniq Hk Hid). reflexivity.
Qed.

(** What the synchronisation and the save hook leave in the Delivery. *)
Lemma synced_delivery_fields status now d :
  let d' := Delivery.pre_save now (sync_delivery status now d) in
  Delivery.status d'
  = (if String.eqb status "delivered" then "completed"
     else if includes ["picked_up"; "in_transit"] status then "ongoing"
     else "assigned")
  /\ Delivery.endTime d'
     = (if String.eqb status "delivered" then Some now else Delivery.endTime d)
  /\ Delivery.startTime d'
     = (if String.eqb status "delivered" then Delivery.startTime d
        else if includes ["picked_up"; "in_transit"] status then
          match Delivery.startTime d with Some s => Some s | None => Some now end
        else Delivery.startTime d)
  /\ Delivery.order d' = Delivery.order d
  /\ Delivery.driver d' = Delivery.driver d
  /\ Delivery.updatedAt d' = now.
Proof.
  unfold sync_delivery, Delivery.pre_save.
  destruct (String.eqb status "delivered");
    [|destruct (includes ["picked_up"; "in_transit"] status)];
    destruct d as [ord drv st [s|] [e|] dur upd]; simpl; repeat split.
Qed.

(** C1 (as amended): on an accepted target status, the Delivery of the
    order is saved with the status of the fixed table: 'delivered' gives
    'completed', 'picked_up' and 'in_transit' give 'ongoing', any other
    accepted status gives 'assigned'.  On 'delivered' [endTime] is set to
    now whether or not it was set before; on 'picked_up' and 'in_transit'
    [startTime] is set to now only if it was unset; otherwise the two
    timestamps are left as they were. *)
Theorem status_update_syncs_delivery now id status db o k d :
  unique_order_index (deliveries db) ->
  includes validStatuses status = true ->
  orders db !! id = Some o ->
  deliveries db !! k = Some d -> Delivery.order d = id ->
  exists d',
    updateStatus now no_faults id (Some status) db
    = (json 200 true "Order status updated successfully",
       set_deliveries (<[k := d']> (deliveries db))
         (set_orders (<[id := Order2.set_status_updatedAt status now o]> (orders db)) db))
    /\ d' = Delivery.pre_save now (sync_delivery status now d)
    /\ Delivery.status d'
       = (if String.eqb status "delivered" then "completed"
          else if includes ["picked_up"; "in_transit"] status then "ongoing"
          else "assigned")
    /\ Delivery.endTime d'
       = (if String.eqb status "delivered" then Some now else Delivery.endTime d)
    /\ Delivery.startTime d'
       = (if String.eqb status "delivered" then Delivery.startTime d
          else if includes ["picked_up"; "in_transit"] status then
            match Delivery.startTime d with Some s => Some s | None => Some now end
          else Delivery.startTime d).
Proof.
  intros Huniq Hvalid Ho Hk Hid.
  exists (Delivery.pre_save now (sync_delivery status now d)).
  split; [exact (updateStatus_with_delivery now no_faults id status db o k d
                   eq_refl Huniq Hvalid Ho Hk Hid)|].
  split; [reflexivity|].
  destruct (synced_delivery_fields status now d) as (Hs & He & Hst & _).
  auto.
Qed.

Lemma status_update_syncs_delivery_witness :
  exists d',
    deliveries (updateStatus 95000 no_faults "o1" (Some "delivered") redelivered).2 !! "dl1"
    = Some d'
    /\ Delivery.status d' = "completed"
    /\ Delivery.endTime d' = Some 95000
    /\ Delivery.startTime d' = Some 1000.
Proof.
  destruct (status_update_syncs_delivery 95000 "o1" "delivered" redelivered
              (order2 (Some "d1") "in_transit") "dl1"
              (delivery "completed" (Some 1000) (Some 2000)))
    as (d' & Hrun & _ & Hs & He & Hst).
  - apply unique_order_index_singleton.
  - reflexivity.
  - reflexivity.
  - reflexivity.
  - reflexivity.
  - exists d'. rewrite Hrun. simpl. rewrite lookup_insert_eq. auto.
Defined.

(** C1, as stated, fails: the table of the specification sets [endTime]
    "if unset", and keeps the end time 2000 of this Delivery; the handler
    overwrites it with the time of the request. *)
Lemma delivered_overwrites_endTime :
  Delivery.endTime (delivery "completed" (Some 1000) (Some 2000)) = Some 2000
  /\ Delivery.endTime
       (spec_sync_delivery "delivered" 95000 (delivery "completed" (Some 1000) (Some 2000)))
     = Some 2000
  /\ Delivery.endTime
       <$> deliveries (updateStatus 95000 no_faults "o1" (Some "delivered") redelivered).2
           !! "dl1"
     = Some (Some 95000).
Proof. repeat split; vm_compute; reflexivity. Qed.

(** C6: when an Order is set to 'delivered', its Delivery is saved with
    [endTime] set (to the time of the request), and if [startTime] was
    already set, with [actualDuration] the rounded whole minutes between
    the two, [Math.round((endTime - startTime) / 60000)]. *)
Theorem delivered_sets_endTime_and_duration now id db o k d :
  unique_order_index (deliveries db) ->
  orders db !! id = Some o ->
  deliveries db !! k = Some d -> Delivery.order d = id ->
  exists d',
    deliveries (updateStatus now no_faults id (Some "delivered") db).2 !! k = Some d'
    /\ Delivery.status d' = "completed"
    /\ Delivery.endTime d' = Some now
    /\ Delivery.startTime d' = Delivery.startTime d
    /\ forall startTime endTime,
         Delivery.startTime d = Some startTime ->
         Delivery.endTime d' = Some endTime ->
         Delivery.actualDuration d'
         = Some (Math_round ((of_Z endTime - of_Z startTime) / 60000)%float).
Proof.
  intros Huniq Ho Hk Hid.
  rewrite (updateStatus_with_delivery now no_faults id "delivered" db o k d
             eq_refl Huniq eq_refl Ho Hk Hid).
  simpl. rewrite lookup_insert_eq. eexists. split; [reflexivity|].
  unfold sync_delivery, Delivery.pre_save. simpl.
  clear Hk Hid. destruct d as [ord drv st [s|] e dur upd]; simpl;
    (do 3 (split; [reflexivity|])).
  - intros s' e' [= <-] [= <-]. reflexivity.
  - intros s' e' [=].
Qed.

(** A delivery started at 1000 ms and delivered at 95000 ms took 94
    seconds, which rounds to 2 minutes. *)
Lemma delivered_sets_endTime_and_duration_witness :
  exists d',
    deliveries (updateStatus 95000 no_faults "o1" (Some "delivered") redelivered).2 !! "dl1"
    = Some d'
    /\ Delivery.endTime d' = Some 95000
    /\ Delivery.actualDuration d' = Some 2%float.
Proof.
  destruct (delivered_sets_endTime_and_duration 95000 "o1" redelivered
              (order2 (Some "d1") "in_transit") "dl1"
              (delivery "completed" (Some 1000) (Some 2000)))
    as (d' & Hd' & _ & He & _ & Hdur).
  - apply unique_order_index_singleton.
  - reflexivity.
  - reflexivity.
  - reflexivity.
  - exists d'. split; [exact Hd'|]. split; [exact He|].
    rewrite (Hdur 1000 95000 eq_refl He). reflexivity.
Defined.

(** C4: when the Order write succeeds and the Delivery save then fails,
    the request ends in a 500 and the Order keeps its new status: the
    store is the one after the Order write, with the Delivery, and
    everything else, as before.  Nothing is rolled back. *)
Theorem delivery_save_failure_keeps_order now faults id status db o k d :
  orderWriteFails faults = false -> deliverySaveFails faults = true ->
  includes validStatuses status = true ->
  orders db !! id = Some o ->
  deliveries db !! k = Some d -> Delivery.order d = id ->
  let result := updateStatus now faults id (Some status) db in
  result.1 = json 500 false "Error updating order"
  /\ result.2
     = set_orders (<[id := Order2.set_status_updatedAt status now o]> (orders db)) db
  /\ Order2.status <$> orders result.2 !! id = Some status
  /\ deliveries result.2 = deliveries db.
Proof.
  intros Hwrite Hsave Hvalid Ho Hk Hid. unfold updateStatus.
  rewrite Hvalid, Hwrite. simpl. rewrite Ho.
  destruct (findOne_exists (for_order id) (deliveries db) k d Hk) as (k' & d' & ->).
  { unfold for_order. rewrite Hid. apply String.eqb_refl. }
  rewrite Hsave. simpl. rewrite lookup_insert_eq. auto.
Qed.

Lemma delivery_save_failure_keeps_order_witness :
  (updateStatus 95000 saveFails "o1" (Some "delivered") redelivered).1
  = json 500 false "Error updating order"
  /\ Order2.status
       <$> orders (updateStatus 95000 saveFails "o1" (Some "delivered") redelivered).2 !! "o1"
     = Some "delivered"
  /\ deliveries (updateStatus 95000 saveFails "o1" (Some "delivered") redelivered).2
     = deliveries redelivered.
Proof.
  destruct (delivery_save_failure_keeps_order 95000 saveFails "o1" "delivered" redelivered
              (order2 (Some "d1") "in_transit") "dl1"
              (delivery "completed" (Some 1000) (Some 2000))
              eq_refl eq_refl eq_refl eq_refl eq_refl eq_refl)
    as (Hr & _ & Hs & Hd).
  auto.
Defined.

End StatusSyncFacts.

(** ** First orders routes module: driver assignment, creation, invariant *)

Module OrdersRoutesFacts.
Import JsNumber OrdersRoutes QueryFacts NumberFacts Examples.
Local Open Scope Z_scope.

Lemma save_new_Some casts newId o db db' :
  save_new casts newId o db = Some db' ->
  db' = set_orders (<[newId := o]> (orders db)) db
  /\ Order.validate casts o = true
  /\ orders db !! newId = None.
Proof.
  unfold save_new.
  destruct (Order.validate casts o); simpl; [|discriminate].
  case_bool_decide as Hfresh; simpl; [|discriminate].
  destruct (_ =? _)%nat; [|discriminate].
  intros [= <-]. auto.
Qed.

(** POST /api/orders either fails and leaves the store as it is, or
    answers 201 and inserts the new document under the new [_id]. *)
Lemma createOrder_cases casts now newId body db :
  (exists response,
     createOrder casts now newId body db = (response, db) /\ code response <> 201)
  \/ exists u r its,
       user body = Some u /\ restaurant body = Some r /\ items body = Some its
       /\ orders db !! newId = None
       /\ let o := new_order now
                     (make_orderNumber now (countDocuments (fun _ => true) (orders db)))
                     u r its body in
          createOrder casts now newId body db
          = (json 201 true "Order created successfully",
             set_orders (<[newId := o]> (orders db)) db).
Proof.
  unfold createOrder.
  destruct (user body) as [u|]; [|left; eexists; split; [reflexivity | discriminate]].
  destruct (restaurant body) as [r|]; [|left; eexists; split; [reflexivity | discriminate]].
  destruct (items body) as [its|]; [|left; eexists; split; [reflexivity | discriminate]].
  destruct (_ || _); [left; eexists; split; [reflexivity | discriminate]|].
  unfold findById.
  destruct (users db !! u);
    [|destruct (casts u); left; eexists; (split; [reflexivity | discriminate])].
  destruct (save_new casts _ _ _) as [db'|] eqn:Hsave;
    [|left; eexists; split; [reflexivity | discriminate]].
  apply (save_new_Some casts) in Hsave as (-> & _ & Hfresh).
  right. exists u, r, its. auto.
Qed.

(** The handler never touches a collection other than the orders. *)
Lemma handle_other_collections casts now r db :
  users (handle casts now r db).2 = users db
  /\ deliveries (handle casts now r db).2 = deliveries db
  /\ restaurants (handle casts now r db).2 = restaurants db.
Proof.
  destruct r as [newId body | id status | id driverId | id]; simpl.
  - destruct (createOrder_cases casts now newId body db)
      as [(response & -> & _) | (u & r & its & _ & _ & _ & _ & ->)]; auto.
  - unfold updateStatus, findById.
    destruct status as [status|]; [|auto].
    destruct (String.eqb status ""); [auto|].
    destruct (negb _); [auto|].
    destruct (orders db !! id); [auto|]. destruct (casts id); auto.
  - unfold assignDriver, findById.
    destruct driverId as [driverId|]; [|auto].
    destruct (String.eqb driverId ""); [auto|].
    destruct (users db !! driverId) as [account|]; [|destruct (casts driverId); auto].
    destruct (negb _); [auto|].
    destruct (orders db !! id); [auto|]. destruct (casts id); auto.
  - unfold deleteOrder, findById.
    destruct (orders db !! id); [auto|]. destruct (casts id); auto.
Qed.



(** The item defaults keep the required paths of an item. *)
Lemma item_defaults_valid (its : list Order.Item) :
  forallb Order.item_valid (map Order.item_defaults its) = forallb Order.item_valid its.
Proof.
  induction its as [|i its IH]; simpl; [reflexivity|]. now rewrite IH.
Qed.

(** The item defaults keep the [menuItem] of an item. *)
Lemma item_defaults_casts casts (its : list Order.Item) :
  forallb (Order.item_casts casts) (map Order.item_defaults its)
  = forallb (Order.item_casts casts) its.
Proof.
  induction its as [|i its IH]; simpl; [reflexivity|]. now rewrite IH.
Qed.

(** [x || 0] is strictly equal ([===]) to [x], for any Number but NaN. *)
Lemma number_or_zero_eq (v : float) :
  PrimFloat.is_nan v = false ->
  PrimFloat.eqb (number_or_zero (Some v)) v = true
  /\ (v <> neg_zero -> number_or_zero (Some v) = v).
Proof.
  intros Hnan. simpl.
  destruct (or_default_zero v Hnan) as [-> | [-> ->]].
  - split; [|reflexivity].
    unfold PrimFloat.is_nan in Hnan. now apply negb_false_iff in Hnan.
  - split; [reflexivity | congruence].
Qed.

(** When POST /api/orders goes through. *)
Lemma createOrder_succeeds casts now newId body db u r its account :
  user body = Some u -> u <> "" ->
  restaurant body = Some r -> r <> "" ->
  items body = Some its -> its <> [] ->
  users db !! u = Some account ->
  forallb Order.item_valid its = true ->
  (missing (paymentMethod body) = true
   \/ exists pm, paymentMethod body = Some pm
                 /\ includes Order.paymentMethodEnum pm = true) ->
  casts u = true -> casts r = true ->
  forallb (Order.item_casts casts) its = true ->
  orders db !! newId = None ->
  let orderNumber := make_orderNumber now (countDocuments (fun _ => true) (orders db)) in
  countDocuments (fun o' => String.eqb (Order.orderNumber o') orderNumber) (orders db)
  = 0%nat ->
  createOrder casts now newId body db
  = (json 201 true "Order created successfully",
     set_orders (<[newId := new_order now orderNumber u r its body]> (orders db)) db).
Proof.
  intros Hu Hu0 Hr Hr0 Hits Hits0 Hacc Hvalid Hpm Hcu Hcr Hci Hfresh orderNumber Huniq.
  unfold createOrder. rewrite Hu, Hr, Hits.
  apply String.eqb_neq in Hu0, Hr0. rewrite Hu0, Hr0.
  destruct its as [|i its]; [congruence|]. simpl length. simpl orb.
  rewrite (findById_found casts u (users db) account Hacc).
  fold orderNumber. unfold save_new.
  assert (Hv : Order.validate casts (new_order now orderNumber u r (i :: its) body) = true).
  { unfold Order.validate. cbn [new_order Order.orderNumber Order.items Order.status
      Order.deliveryStatus Order.paymentMethod Order.user Order.restaurant].
    rewrite item_defaults_valid, Hvalid, item_defaults_casts, Hci, Hcu, Hcr.
    destruct Hpm as [-> | (pm & -> & Hpm)].
    - reflexivity.
    - destruct (missing (Some pm)); [reflexivity|]. simpl default. rewrite Hpm. reflexivity. }
  rewrite Hv. rewrite bool_decide_eq_true_2 by exact Hfresh.
  cbn [Order.orderNumber new_order]. rewrite Huniq. reflexivity.
Qed.

(** C8: an order-creation request that supplies [totalAmount] with its
    items is stored with that [totalAmount]: when the Order is created,
    its [totalAmount] is strictly equal to the supplied Number (and the
    very same Number, but for a negative zero, stored as zero), whatever
    the items and their prices and quantities are; and the creation goes
    through on conditions that do not look at the total or at the prices
    at all: the customer has an Account, the customer, the restaurant
    and the menu items named by the items are ObjectIds, every item has
    a name and a price, the payment method is one of the schema's, and
    the new [_id] and order number are free.  Nothing is recomputed
    from, or checked against, the sum of the item subtotals. *)
Theorem createOrder_totalAmount_verbatim casts now newId body db v :
  totalAmount body = Some v ->
  PrimFloat.is_nan v = false ->
  (forall response db',
     createOrder casts now newId body db = (response, db') -> code response = 201 ->
     exists o,
       orders db' !! newId = Some o
       /\ PrimFloat.eqb (Order.totalAmount o) v = true
       /\ (v <> neg_zero -> Order.totalAmount o = v))
  /\ (forall u r its account,
       user body = Some u -> u <> "" ->
       restaurant body = Some r -> r <> "" ->
       items body = Some its -> its <> [] ->
       users db !! u = Some account ->
       forallb Order.item_valid its = true ->
       (missing (paymentMethod body) = true
        \/ exists pm, paymentMethod body = Some pm
                      /\ includes Order.paymentMethodEnum pm = true) ->
       casts u = true -> casts r = true ->
       forallb (Order.item_casts casts) its = true ->
       orders db !! newId = None ->
       countDocuments
         (fun o' =>
            String.eqb (Order.orderNumber o')
              (make_orderNumber now (countDocuments (fun _ => true) (orders db))))
         (orders db) = 0%nat ->
       exists o,
         (createOrder casts now newId body db).1 = json 201 true "Order created successfully"
         /\ orders (createOrder casts now newId body db).2 !! newId = Some o
         /\ PrimFloat.eqb (Order.totalAmount o) v = true).
Proof.
  intros Htotal Hnan.
  destruct (number_or_zero_eq v Hnan) as [Heq Hsame].
  split.
  - intros response db' Hrun Hcode.
    destruct (createOrder_cases casts now newId body db)
      as [(response' & Hfail & Hcode') | (u & r & its & _ & _ & _ & _ & Hcreated)].
    + rewrite Hrun in Hfail. congruence.
    + rewrite Hrun in Hcreated. injection Hcreated as _ ->.
      eexists. simpl. rewrite lookup_insert_eq. split; [reflexivity|].
      cbn [Order.totalAmount new_order]. rewrite Htotal. auto.
  - intros u r its account Hu Hu0 Hr Hr0 Hits Hits0 Hacc Hvalid Hpm Hcu Hcr Hci Hfresh Huniq.
    rewrite (createOrder_succeeds casts now newId body db u r its account) by auto.
    eexists. simpl. rewrite lookup_insert_eq. split; [reflexivity|].
    split; [reflexivity|].
    cbn [Order.totalAmount new_order]. rewrite Htotal. auto.
Qed.


(** The basket, worth 45, is ordered with a total of 50, and stored with
    a total of 50. *)
Lemma createOrder_totalAmount_verbatim_witness :
  items_sum basket = 45%float
  /\ exists o,
       (createOrder hex24 1700000000000 o1_id basketBody db1).1
       = json 201 true "Order created successfully"
       /\ orders (createOrder hex24 1700000000000 o1_id basketBody db1).2 !! o1_id = Some o
       /\ PrimFloat.eqb (Order.totalAmount o) 50 = true.
Proof.
  split; [reflexivity|].
  destruct (createOrder_totalAmount_verbatim hex24 1700000000000 o1_id basketBody db1 50
              eq_refl eq_refl) as [_ Hcreate].
  apply (Hcreate c1_id r1_id basket thandi); try reflexivity; try discriminate.
  left. reflexivity.
Defined.


(** Every document that a request of the module writes has its
    [deliveryStatus] equal to its [status]: an Order found in the store
    after a request was there before, or satisfies the equation. *)
Lemma handle_writes_mirrored casts now r db k o' :
  orders (handle casts now r db).2 !! k = Some o' ->
  orders db !! k = Some o' \/ Order.status o' = Order.deliveryStatus o'.
Proof.
  destruct r as [newId body | id status | id driverId | id]; simpl.
  - destruct (createOrder_cases casts now newId body db)
      as [(response & -> & _) | (u & r & its & _ & _ & _ & _ & ->)]; [auto|].
    simpl. intros [[<- <-] | [_ Hold]]%lookup_insert_Some; auto.
  - unfold updateStatus, findById.
    destruct status as [status|]; [|auto].
    destruct (String.eqb status ""); [auto|].
    destruct (negb _); [auto|].
    destruct (orders db !! id) as [o|]; [|destruct (casts id); auto].
    simpl. intros [[<- <-] | [_ Hold]]%lookup_insert_Some; auto.
  - unfold assignDriver, findById.
    destruct driverId as [driverId|]; [|auto].
    destruct (String.eqb driverId ""); [auto|].
    destruct (users db !! driverId) as [account|]; [|destruct (casts driverId); auto].
    destruct (negb _); [auto|].
    destruct (orders db !! id) as [o|]; [|destruct (casts id); auto].
    simpl. intros [[<- <-] | [_ Hold]]%lookup_insert_Some; auto.
  - unfold deleteOrder, findById.
    destruct (orders db !! id) as [o|]; [|destruct (casts id); auto].
    simpl. intros [_ Hold]%lookup_delete_Some. auto.
Qed.

Lemma handle_preserves_mirrored casts now r db :
  status_mirrored db -> status_mirrored (handle casts now r db).2.
Proof.
  intros Hinv k o' Hk.
  destruct (handle_writes_mirrored casts now r db k o' Hk) as [Hold | Hnew]; [|exact Hnew].
  exact (Hinv k o' Hold).
Qed.

Lemma run_preserves_mirrored casts rs db :
  status_mirrored db -> status_mirrored (run casts rs db).
Proof.
  revert db. induction rs as [|[now r] rs IH]; intros db Hinv; simpl; [exact Hinv|].
  apply IH, handle_preserves_mirrored, Hinv.
Qed.

(** An accepted status is not the empty string. *)
Lemma validStatuses_nonempty status :
  includes validStatuses status = true -> String.eqb status "" = false.
Proof.
  intros Hin. destruct (String.eqb status "") eqn:E; [|reflexivity].
  apply String.eqb_eq in E. subst status. discriminate Hin.
Qed.

(** C10: in the first orders routes module every write path sets
    [deliveryStatus] to the value of [status]: a created Order has both
    'pending', a status update sets both to the new status, a driver
    assignment sets both to 'assigned'.  So [status = deliveryStatus] is
    an invariant of the store under the requests of the module, and holds
    of every Order of a store that the module has filled from empty. *)
Theorem deliveryStatus_mirrors_status casts :
  (forall now newId body db response db',
      createOrder casts now newId body db = (response, db') -> code response = 201 ->
      exists o, orders db' !! newId = Some o
                /\ Order.status o = "pending" /\ Order.deliveryStatus o = "pending")
  /\ (forall now id status db o,
      includes validStatuses status = true -> orders db !! id = Some o ->
      exists o', orders (updateStatus casts now id (Some status) db).2 !! id = Some o'
                 /\ Order.status o' = status /\ Order.deliveryStatus o' = status)
  /\ (forall now id driverId db account o,
      driverId <> "" ->
      users db !! driverId = Some account -> User.userType account = "driver" ->
      orders db !! id = Some o ->
      exists o', orders (assignDriver casts now id (Some driverId) db).2 !! id = Some o'
                 /\ Order.status o' = "assigned" /\ Order.deliveryStatus o' = "assigned")
  /\ (forall now r db k o',
      orders (handle casts now r db).2 !! k = Some o' ->
      orders db !! k = Some o' \/ Order.status o' = Order.deliveryStatus o')
  /\ (forall now r db, status_mirrored db -> status_mirrored (handle casts now r db).2)
  /\ (forall rs db, orders db = ∅ -> status_mirrored (run casts rs db)).
Proof.
  split; [|split; [|split; [|split; [|split]]]].
  - intros now newId body db response db' Hrun Hcode.
    destruct (createOrder_cases casts now newId body db)
      as [(response' & Hfail & Hcode') | (u & r & its & _ & _ & _ & _ & Hcreated)].
    + rewrite Hrun in Hfail. congruence.
    + rewrite Hrun in Hcreated. injection Hcreated as _ ->.
      eexists. simpl. rewrite lookup_insert_eq. auto.
  - intros now id status db o Hvalid Ho. unfold updateStatus, findById.
    rewrite (validStatuses_nonempty status Hvalid), Hvalid, Ho. simpl.
    eexists. rewrite lookup_insert_eq. auto.
  - intros now id driverId db account o Hid%String.eqb_neq Hacc Hrole%String.eqb_eq Ho.
    unfold assignDriver, findById. rewrite Hid, Hacc, Hrole, Ho. simpl.
    eexists. rewrite lookup_insert_eq. auto.
  - exact (handle_writes_mirrored casts).
  - exact (handle_preserves_mirrored casts).
  - intros rs db Hempty. apply (run_preserves_mirrored casts).
    unfold status_mirrored. rewrite Hempty. apply map_Forall_empty.
Qed.

(** The basket is ordered, confirmed, given to driver [d1] and picked up:
    the stored Order has both fields 'picked_up'. *)
Lemma deliveryStatus_mirrors_status_witness :
  let requests :=
    [(1700000000000, POST_order o1_id basketBody);
     (1700000030000, PUT_status o1_id (Some "confirmed"));
     (1700000060000, PUT_assign_driver o1_id (Some d1_id));
     (1700000090000, PUT_status o1_id (Some "picked_up"))] in
  status_mirrored (run hex24 requests db1)
  /\ (Order.status <$> orders (run hex24 requests db1) !! o1_id = Some "picked_up")
  /\ (Order.deliveryStatus <$> orders (run hex24 requests db1) !! o1_id = Some "picked_up").
Proof.
  destruct (deliveryStatus_mirrors_status hex24) as (_ & _ & _ & _ & _ & Hrun).
  split; [apply Hrun; reflexivity|].
  split; vm_compute; reflexivity.
Defined.

(** C3: PUT /api/orders/:id/status with a target status outside the
    accepted set of the routes module, or with none, is answered 400 and
    leaves the store, and so the Order, exactly as it was: no status,
    timestamp, [deliveryStatus] or status-history change.  This holds of
    both routes modules, each with its own accepted set. *)
Theorem invalid_status_rejected casts :
  (forall now id status db,
      match status with
      | Some s => includes OrdersRoutes.validStatuses s = false
      | None => True
      end ->
      exists response,
        OrdersRoutes.updateStatus casts now id status db = (response, db)
        /\ code response = 400 /\ success response = false)
  /\ (forall now faults id status db,
      match status with
      | Some s => includes OrdersRoutes2.validStatuses s = false
      | None => True
      end ->
      exists response,
        OrdersRoutes2.updateStatus now faults id status db = (response, db)
        /\ code response = 400 /\ success response = false).
Proof.
  split.
  - intros now id [s|] db Hout; unfold updateStatus; [|eauto].
    destruct (String.eqb s ""); [eauto|].
    rewrite Hout. simpl. eauto.
  - intros now fails id [s|] db Hout; unfold OrdersRoutes2.updateStatus;
      [rewrite Hout|]; simpl; eauto.
Qed.

(** 'shipped' is in neither set, and 'assigned' is not in the second. *)
Lemma invalid_status_rejected_witness :
  (exists response,
     OrdersRoutes.updateStatus hex24 1700000030000 o1_id (Some "shipped") db1_ordered
     = (response, db1_ordered) /\ code response = 400 /\ success response = false)
  /\ (exists response,
     OrdersRoutes2.updateStatus 1700000030000 OrdersRoutes2.no_faults "o1" (Some "assigned")
       redelivered
     = (response, redelivered) /\ code response = 400 /\ success response = false).
Proof.
  destruct (invalid_status_rejected hex24) as [HA HB].
  split.
  - apply (HA 1700000030000 o1_id (Some "shipped") db1_ordered). reflexivity.
  - apply (HB 1700000030000 OrdersRoutes2.no_faults "o1" (Some "assigned") redelivered).
    reflexivity.
Defined.

End OrdersRoutesFacts.

(** ** Deleting accounts and restaurants *)

Module AccountsRoutesFacts.
Import AccountsRoutes QueryFacts Examples.

Lemma customer_activeOrders_true id o :
  customer_activeOrders id o = true
  <-> Order2.customer o = id
      /\ In (Order2.status o) ["pending"; "confirmed"; "picked_up"; "in_transit"].
Proof.
  unfold customer_activeOrders.
  now rewrite andb_true_iff, String.eqb_eq, includes_In.
Qed.

Lemma driver_activeDeliveries_true id d :
  driver_activeDeliveries id d = true
  <-> Delivery.driver d = id /\ In (Delivery.status d) ["assigned"; "ongoing"].
Proof.
  unfold driver_activeDeliveries.
  now rewrite andb_true_iff, String.eqb_eq, includes_In.
Qed.

Lemma driver_activeOrders_true id o :
  driver_activeOrders id o = true
  <-> Order2.driver o = Some id
      /\ In (Order2.status o) ["confirmed"; "picked_up"; "in_transit"].
Proof.
  unfold driver_activeOrders. rewrite andb_true_iff, includes_In.
  destruct (Order2.driver o) as [d|].
  - rewrite String.eqb_eq. split; intros [H1 H2]; split; congruence.
  - split; intros [H1 H2]; discriminate.
Qed.

(** [0 < countDocuments(query)] in terms of the documents. *)
Lemma count_ltb {A} (query : A -> bool) (c : gmap ObjectId A) :
  (0 <? countDocuments query c)%nat = true
  <-> exists k d, c !! k = Some d /\ query d = true.
Proof. now rewrite Nat.ltb_lt, countDocuments_pos. Qed.

Lemma count_ltb_false {A} (query : A -> bool) (c : gmap ObjectId A) :
  (0 <? countDocuments query c)%nat = false
  <-> forall k d, c !! k = Some d -> query d = false.
Proof.
  rewrite Nat.ltb_ge, <- countDocuments_zero. lia.
Qed.


Lemma deleteCustomer_blocked id db customer k o :
  users db !! id = Some customer -> User.userType customer = "customer" ->
  orders db !! k = Some o -> Order2.customer o = id ->
  In (Order2.status o) ["pending"; "confirmed"; "picked_up"; "in_transit"] ->
  deleteCustomer id db = (json 400 false "Cannot delete customer with active orders", db).
Proof.
  intros Hu Hrole%String.eqb_eq Hk Hc Hs. unfold deleteCustomer.
  rewrite Hu, Hrole. simpl.
  assert (Hpos : (0 <? countDocuments (customer_activeOrders id) (orders db))%nat = true).
  { apply count_ltb. exists k, o. split; [exact Hk|].
    now apply customer_activeOrders_true. }
  now rewrite Hpos.
Qed.

Lemma deleteCustomer_free id db customer :
  users db !! id = Some customer -> User.userType customer = "customer" ->
  (forall k o, orders db !! k = Some o -> Order2.customer o = id ->
     ~ In (Order2.status o) ["pending"; "confirmed"; "picked_up"; "in_transit"]) ->
  deleteCustomer id db
  = (json 200 true "Customer deleted successfully", set_users (delete id (users db)) db).
Proof.
  intros Hu Hrole%String.eqb_eq Hnone. unfold deleteCustomer.
  rewrite Hu, Hrole. simpl.
  assert (H0 : (0 <? countDocuments (customer_activeOrders id) (orders db))%nat = false).
  { apply count_ltb_false. intros k o Hk.
    destruct (customer_activeOrders id o) eqn:E; [|reflexivity].
    apply customer_activeOrders_true in E as [Hc Hs]. now destruct (Hnone k o Hk Hc). }
  now rewrite H0.
Qed.

Lemma deleteDriver_blocked id db driver :
  users db !! id = Some driver -> User.userType driver = "driver" ->
  (exists k d, deliveries db !! k = Some d /\ Delivery.driver d = id
               /\ In (Delivery.status d) ["assigned"; "ongoing"])
  \/ (exists k o, orders db !! k = Some o /\ Order2.driver o = Some id
                  /\ In (Order2.status o) ["confirmed"; "picked_up"; "in_transit"]) ->
  deleteDriver id db
  = (json 400 false "Cannot delete driver with active deliveries or orders", db).
Proof.
  intros Hu Hrole%String.eqb_eq Hactive. unfold deleteDriver.
  rewrite Hu, Hrole. simpl.
  assert (Hpos : (0 <? countDocuments (driver_activeDeliveries id) (deliveries db))%nat
                 || (0 <? countDocuments (driver_activeOrders id) (orders db))%nat = true).
  { apply orb_true_iff. destruct Hactive as [(k & d & Hk & Hd & Hs) | (k & o & Hk & Hd & Hs)].
    - left. apply count_ltb. exists k, d. split; [exact Hk|].
      now apply driver_activeDeliveries_true.
    - right. apply count_ltb. exists k, o. split; [exact Hk|].
      now apply driver_activeOrders_true. }
  now rewrite Hpos.
Qed.

Lemma deleteDriver_free id db driver :
  users db !! id = Some driver -> User.userType driver = "driver" ->
  (forall k d, deliveries db !! k = Some d -> Delivery.driver d = id ->
     ~ In (Delivery.status d) ["assigned"; "ongoing"]) ->
  (forall k o, orders db !! k = Some o -> Order2.driver o = Some id ->
     ~ In (Order2.status o) ["confirmed"; "picked_up"; "in_transit"]) ->
  deleteDriver id db
  = (json 200 true "Driver deleted successfully", set_users (delete id (users db)) db).
Proof.
  intros Hu Hrole%String.eqb_eq Hdel Hord. unfold deleteDriver.
  rewrite Hu, Hrole. simpl.
  assert (H1 : (0 <? countDocuments (driver_activeDeliveries id) (deliveries db))%nat = false).
  { apply count_ltb_false. intros k d Hk.
    destruct (driver_activeDeliveries id d) eqn:E; [|reflexivity].
    apply driver_activeDeliveries_true in E as [Hd Hs]. now destruct (Hdel k d Hk Hd). }
  assert (H2 : (0 <? countDocuments (driver_activeOrders id) (orders db))%nat = false).
  { apply count_ltb_false. intros k o Hk.
    destruct (driver_activeOrders id o) eqn:E; [|reflexivity].
    apply driver_activeOrders_true in E as [Hd Hs]. now destruct (Hord k o Hk Hd). }
  now rewrite H1, H2.
Qed.

(** C2 (as amended): DELETE of a customer Account is refused (400, nothing
    deleted) when one of the customer's Orders is pending, confirmed,
    picked_up or in_transit, and goes through when none is.  DELETE of a
    driver Account is refused when one of the driver's Deliveries is
    assigned or ongoing, or one of the driver's Orders is confirmed,
    picked_up or in_transit, and goes through when none is.  DELETE of a
    Restaurant checks no reference: it goes through whenever the
    Restaurant exists. *)
Theorem delete_guards :
  (forall id db customer,
      users db !! id = Some customer -> User.userType customer = "customer" ->
      ((exists k o, orders db !! k = Some o /\ Order2.customer o = id
                    /\ In (Order2.status o)
                         ["pending"; "confirmed"; "picked_up"; "in_transit"]) ->
       deleteCustomer id db
       = (json 400 false "Cannot delete customer with active orders", db))
      /\ ((forall k o, orders db !! k = Some o -> Order2.customer o = id ->
             ~ In (Order2.status o) ["pending"; "confirmed"; "picked_up"; "in_transit"]) ->
          deleteCustomer id db
          = (json 200 true "Customer deleted successfully",
             set_users (delete id (users db)) db)))
  /\ (forall id db driver,
      users db !! id = Some driver -> User.userType driver = "driver" ->
      ((exists k d, deliveries db !! k = Some d /\ Delivery.driver d = id
                    /\ In (Delivery.status d) ["assigned"; "ongoing"])
       \/ (exists k o, orders db !! k = Some o /\ Order2.driver o = Some id
                       /\ In (Order2.status o) ["confirmed"; "picked_up"; "in_transit"]) ->
       deleteDriver id db
       = (json 400 false "Cannot delete driver with active deliveries or orders", db))
      /\ ((forall k d, deliveries db !! k = Some d -> Delivery.driver d = id ->
             ~ In (Delivery.status d) ["assigned"; "ongoing"]) ->
          (forall k o, orders db !! k = Some o -> Order2.driver o = Some id ->
             ~ In (Order2.status o) ["confirmed"; "picked_up"; "in_transit"]) ->
          deleteDriver id db
          = (json 200 true "Driver deleted successfully",
             set_users (delete id (users db)) db)))
  /\ (forall id db restaurant,
      restaurants db !! id = Some restaurant ->
      deleteRestaurant id db
      = (json 200 true "Restaurant deleted successfully",
         set_restaurants (delete id (restaurants db)) db)).
Proof.
  split; [|split].
  - intros id db customer Hu Hrole. split.
    + intros (k & o & Hk & Hc & Hs). eapply deleteCustomer_blocked; eauto.
    + intros Hnone. eapply deleteCustomer_free; eauto.
  - intros id db driver Hu Hrole. split.
    + intros Hactive. eapply deleteDriver_blocked; eauto.
    + intros Hdel Hord. eapply deleteDriver_free; eauto.
  - intros id db restaurant Hr. unfold deleteRestaurant. now rewrite Hr.
Qed.

(** Customer [c1] has a pending order and stays; restaurant [r1] goes. *)
Lemma delete_guards_witness :
  deleteCustomer "c1" pendingOrder
  = (json 400 false "Cannot delete customer with active orders", pendingOrder)
  /\ deleteRestaurant "r1" pendingOrder
     = (json 200 true "Restaurant deleted successfully",
        set_restaurants (delete "r1" (restaurants pendingOrder)) pendingOrder).
Proof.
  destruct delete_guards as (Hcustomer & _ & Hrestaurant).
  split.
  - apply (Hcustomer "c1" pendingOrder thandi eq_refl eq_refl).
    exists "o1", (order2 (Some "d1") "pending").
    split; [reflexivity|]. split; [reflexivity|]. simpl. auto.
  - apply (Hrestaurant "r1" pendingOrder store). reflexivity.
Defined.

(** C2, as stated, fails.  Order [o1] is pending, a non-terminal status,
    and references restaurant [r1] and driver [d1]; yet the DELETE of the
    restaurant succeeds and removes it, and so does the DELETE of the
    driver, whose check does not count pending orders. *)
Lemma deleted_despite_open_order :
  (0 < spec_open_references "r1" pendingOrder)%nat
  /\ (deleteRestaurant "r1" pendingOrder).1
     = json 200 true "Restaurant deleted successfully"
  /\ restaurants (deleteRestaurant "r1" pendingOrder).2 !! "r1" = None
  /\ (0 < spec_open_references "d1" pendingOrder)%nat
  /\ (deleteDriver "d1" pendingOrder).1 = json 200 true "Driver deleted successfully"
  /\ users (deleteDriver "d1" pendingOrder).2 !! "d1" = None.
Proof.
  repeat split; vm_compute; reflexivity.
Qed.

End AccountsRoutesFacts.

(** ** MenuItem: stock updates, virtuals, availability toggle *)

Module MenuItemMoreFacts.
Import JsNumber MenuItem MenuItemVirtuals MenuRoutes NumberFacts Examples MoreExamples.

(** A positive number is not negative. *)
Lemma pos_not_neg (x : float) :
  PrimFloat.ltb 0 x = true -> PrimFloat.ltb x 0 = false.
Proof.
  rewrite !FloatAxioms.ltb_spec, Prim2SF_zero.
  unfold SFltb, SFcompare.
  destruct (Prim2SF x) as [s | s | | s m e]; try discriminate;
    destruct s; try discriminate; reflexivity.
Qed.

(** [Math.max(0, x)] is never negative, and is zero unless [x] is
    positive or NaN. *)
Lemma Math_max_zero_nonneg (x : float) :
  PrimFloat.ltb (Math_max 0 x) 0 = false.
Proof.
  unfold Math_max. change (PrimFloat.is_nan 0) with false. simpl orb.
  destruct (PrimFloat.is_nan x); [reflexivity|].
  destruct (PrimFloat.ltb 0 x) eqn:Hpos; [now apply pos_not_neg|].
  destruct (PrimFloat.ltb x 0); reflexivity.
Qed.

Lemma Math_max_zero_clamps (x : float) :
  PrimFloat.is_nan x = false -> PrimFloat.ltb 0 x = false -> Math_max 0 x = 0%float.
Proof.
  intros Hnan Hpos. unfold Math_max.
  change (PrimFloat.is_nan 0) with false. simpl orb. rewrite Hnan, Hpos.
  destruct (PrimFloat.ltb x 0); reflexivity.
Qed.

Lemma pre_save_currentStock (m : t) :
  currentStock (stockManagement (pre_save m)) = currentStock (stockManagement m).
Proof.
  unfold pre_save. destruct (trackStock (stockManagement m)); [|reflexivity].
  destruct (is_zero (currentStock (stockManagement m))); reflexivity.
Qed.

(** X1: the save hook is idempotent: a document that went through it is
    left as it is by a second pass. *)
Theorem pre_save_idempotent (m : t) :
  pre_save (pre_save m) = pre_save m.
Proof.
  unfold pre_save.
  destruct (trackStock (stockManagement m)) eqn:Htrack; simpl; [|now rewrite Htrack].
  destruct (is_zero (currentStock (stockManagement m))) eqn:Hz; simpl;
    now rewrite Htrack, Hz.
Qed.

(** X2: [updateStock] with 'subtract' or 'set' never leaves a negative
    stock, whatever the quantity; on an item that does not track its
    stock it changes nothing at all. *)
Theorem updateStock_never_negative (quantity : float) (operation : string) (m : t) :
  (trackStock (stockManagement m) = true ->
   operation = "subtract" \/ operation = "set" ->
   PrimFloat.ltb (currentStock (stockManagement (updateStock quantity operation m))) 0
   = false)
  /\ (trackStock (stockManagement m) = false -> updateStock quantity operation m = m).
Proof.
  split.
  - intros Htrack Hop. unfold updateStock, save. rewrite Htrack. simpl negb. cbv iota.
    rewrite pre_save_currentStock.
    destruct Hop as [-> | ->]; simpl String.eqb; cbv iota.
    + destruct (isOutOfStock _); simpl; apply Math_max_zero_nonneg.
    + destruct (isOutOfStock _); simpl; apply Math_max_zero_nonneg.
  - intros Htrack. unfold updateStock. now rewrite Htrack.
Qed.

Lemma updateStock_never_negative_witness :
  PrimFloat.ltb (currentStock (stockManagement (updateStock 7 "subtract" inStock))) 0 = false
  /\ updateStock 7 "subtract" untracked = untracked.
Proof.
  destruct (updateStock_never_negative 7 "subtract" inStock) as [Hneg _].
  destruct (updateStock_never_negative 7 "subtract" untracked) as [_ Hsame].
  split; [apply Hneg; [reflexivity | now left] | apply Hsame; reflexivity].
Defined.

(** X3: selling at least what is in stock sells the item out: when
    [currentStock - quantity] is not positive, [updateStock] leaves a
    stock of zero, [isOutOfStock] set and the item unavailable. *)
Theorem updateStock_sells_out (quantity : float) (m : t) :
  trackStock (stockManagement m) = true ->
  PrimFloat.is_nan (currentStock (stockManagement m) - quantity) = false ->
  PrimFloat.ltb 0 (currentStock (stockManagement m) - quantity) = false ->
  let m' := updateStock quantity "subtract" m in
  currentStock (stockManagement m') = 0%float
  /\ isOutOfStock (stockManagement m') = true
  /\ isAvailable m' = false.
Proof.
  intros Htrack Hnan Hpos. unfold updateStock, save. rewrite Htrack. simpl negb. cbv iota.
  simpl String.eqb. cbv iota.
  rewrite (Math_max_zero_clamps _ Hnan Hpos). simpl.
  unfold pre_save. simpl. rewrite Htrack. simpl. auto.
Qed.

Lemma updateStock_sells_out_witness :
  currentStock (stockManagement (updateStock 7 "subtract" inStock)) = 0%float
  /\ isOutOfStock (stockManagement (updateStock 7 "subtract" inStock)) = true
  /\ isAvailable (updateStock 7 "subtract" inStock) = false.
Proof.
  apply (updateStock_sells_out 7 inStock); reflexivity.
Defined.

(** X4: on an item that tracks its stock and has been through the save
    hook, [isActuallyAvailable] is [isAvailable] and a positive stock (the
    [isOutOfStock] flag adds nothing), and an item in low stock is never
    flagged out of stock. *)
Theorem virtuals_after_save (m : t) :
  trackStock (stockManagement m) = true ->
  isActuallyAvailable (pre_save m)
  = isAvailable m && PrimFloat.ltb 0 (currentStock (stockManagement m))
  /\ (isLowStock (pre_save m) = true -> isOutOfStock (stockManagement (pre_save m)) = false).
Proof.
  intros Htrack. unfold isActuallyAvailable, isLowStock, pre_save. rewrite Htrack.
  destruct (is_zero (currentStock (stockManagement m))) eqn:Hz; simpl; rewrite ?Htrack.
  - rewrite (zero_not_pos _ Hz). split; [now rewrite andb_false_r | discriminate].
  - split; [|reflexivity]. now destruct (isAvailable m).
Qed.

Lemma virtuals_after_save_witness :
  isActuallyAvailable (pre_save inStock) = true
  /\ isActuallyAvailable (pre_save soldOut) = false.
Proof.
  destruct (virtuals_after_save inStock eq_refl) as [Hin _].
  destruct (virtuals_after_save soldOut eq_refl) as [Hout _].
  rewrite Hin, Hout. split; reflexivity.
Defined.


(** X5: PATCH toggle-availability cannot make a sold-out item available:
    on an item that tracks its stock and has none, whatever its flag was,
    the save hook forces [isAvailable] to false, and the response reads
    "marked unavailable". *)
Theorem toggle_sold_out_stays_unavailable casts id (menu : gmap ObjectId MenuItem.t) m :
  menu !! id = Some m ->
  trackStock (stockManagement m) = true ->
  is_zero (currentStock (stockManagement m)) = true ->
  exists m',
    toggleAvailability casts false id menu
    = (json 200 true "Menu item marked unavailable", <[id := m']> menu)
    /\ isAvailable m' = false
    /\ isOutOfStock (stockManagement m') = true.
Proof.
  intros Hm Htrack Hz. unfold toggleAvailability, findById, save, pre_save. rewrite Hm.
  simpl. rewrite Htrack, Hz. simpl. eexists. split; [reflexivity|]. auto.
Qed.

Lemma toggle_sold_out_stays_unavailable_witness :
  exists m',
    toggleAvailability hex24 false m1_id (<[m1_id := save soldOut]> menu)
    = (json 200 true "Menu item marked unavailable",
       <[m1_id := m']> (<[m1_id := save soldOut]> menu))
    /\ isAvailable m' = false.
Proof.
  destruct (toggle_sold_out_stays_unavailable hex24 m1_id (<[m1_id := save soldOut]> menu)
              (save soldOut))
    as (m' & Hrun & Hav & _); [reflexivity | reflexivity | reflexivity |].
  exists m'. auto.
Defined.




End MenuItemMoreFacts.

(** ** Restaurants: toggle-status *)

Module RestaurantsFacts.
Import RestaurantsRoutes Examples MoreExamples.



End RestaurantsFacts.

(** ** Status updates with Delivery sync: what a request can change *)

Module StatusRunFacts.
Import JsNumber OrdersRoutes2 OrdersReads2 Evolution QueryFacts StatusSyncFacts.
Import Examples MoreExamples.
Local Open Scope Z_scope.

(** The outcomes of PUT /api/orders/:id/status: a failure that leaves the
    store as it is, or the Order write, followed, if a Delivery of the
    order is found, by its save or by the failure of its save. *)
Lemma updateStatus_cases now f id st db :
  (exists response,
     updateStatus now f id st db = (response, db) /\ success response = false)
  \/ exists status o,
       st = Some status /\ includes validStatuses status = true
       /\ orderWriteFails f = false /\ orders db !! id = Some o
       /\ let db1 :=
            set_orders (<[id := Order2.set_status_updatedAt status now o]> (orders db)) db in
          (findOne (for_order id) (deliveries db) = None
           /\ updateStatus now f id st db
              = (json 200 true "Order status updated successfully", db1))
          \/ exists k d,
               deliveries db !! k = Some d /\ Delivery.order d = id
               /\ updateStatus now f id st db
                  = if deliverySaveFails f then (json 500 false "Error updating order", db1)
                    else (json 200 true "Order status updated successfully",
                          set_deliveries
                            (<[k := Delivery.pre_save now (sync_delivery status now d)]>
                               (deliveries db)) db1).
Proof.
  unfold updateStatus.
  destruct st as [status|]; [|left; eexists; split; reflexivity].
  destruct (includes validStatuses status) eqn:Hvalid;
    [|left; eexists; split; reflexivity].
  simpl negb. simpl default. cbv iota.
  destruct (orderWriteFails f) eqn:Hwrite; [left; eexists; split; reflexivity|].
  destruct (orders db !! id) as [o|] eqn:Ho; [|left; eexists; split; reflexivity].
  right. exists status, o. do 4 (split; [first [reflexivity | assumption]|]). cbv zeta.
  cbn [deliveries set_orders].
  destruct (findOne (for_order id) (deliveries db)) as [[k d]|] eqn:Hfind.
  - right. exists k, d.
    destruct (findOne_Some _ _ _ _ Hfind) as [Hk Hq%String.eqb_eq].
    do 2 (split; [assumption|]). reflexivity.
  - left. auto.
Qed.

Lemma sync_delivery_evolves status now d :
  delivery_evolves d (Delivery.pre_save now (sync_delivery status now d)).
Proof.
  destruct (synced_delivery_fields status now d) as (_ & _ & Hst & Ho & Hd & _).
  split; [exact Ho|]. split; [exact Hd|].
  intros s Hs. rewrite Hst, Hs.
  destruct (String.eqb status "delivered"); [reflexivity|].
  destruct (includes ["picked_up"; "in_transit"] status); reflexivity.
Qed.

Lemma delivery_evolves_refl d : delivery_evolves d d.
Proof. repeat split; auto. Qed.

Lemma delivery_evolves_trans d1 d2 d3 :
  delivery_evolves d1 d2 -> delivery_evolves d2 d3 -> delivery_evolves d1 d3.
Proof.
  intros (Ho1 & Hd1 & Hs1) (Ho2 & Hd2 & Hs2).
  split; [congruence|]. split; [congruence|]. auto.
Qed.

Lemma order2_evolves_refl o : order2_evolves o o.
Proof. repeat split. Qed.

Lemma order2_evolves_trans o1 o2 o3 :
  order2_evolves o1 o2 -> order2_evolves o2 o3 -> order2_evolves o1 o3.
Proof.
  intros (H1 & H2 & H3 & H4 & H5) (H1' & H2' & H3' & H4' & H5').
  repeat split; congruence.
Qed.

(** One request: every Delivery and every Order stays under its key. *)
Lemma updateStatus_step now f id st db :
  let db' := (updateStatus now f id st db).2 in
  users db' = users db /\ restaurants db' = restaurants db
  /\ (forall k d, deliveries db !! k = Some d ->
        exists d', deliveries db' !! k = Some d' /\ delivery_evolves d d')
  /\ (forall k, deliveries db !! k = None -> deliveries db' !! k = None)
  /\ (forall k o, orders db !! k = Some o ->
        exists o', orders db' !! k = Some o' /\ order2_evolves o o')
  /\ (forall k, orders db !! k = None -> orders db' !! k = None).
Proof.
  destruct (updateStatus_cases now f id st db)
    as [(response & -> & _) | (status & o & _ & _ & _ & Ho & Hcases)].
  { simpl. repeat split; eauto using delivery_evolves_refl, order2_evolves_refl. }
  assert (Hstep_o : forall k o0, orders db !! k = Some o0 ->
             exists o',
               <[id := Order2.set_status_updatedAt status now o]> (orders db) !! k = Some o'
               /\ order2_evolves o0 o').
  { intros k o0 Hk. destruct (decide (k = id)) as [-> | Hne].
    - rewrite lookup_insert_eq. eexists. split; [reflexivity|].
      rewrite Ho in Hk. injection Hk as <-. repeat split.
    - rewrite lookup_insert_ne by congruence. eauto using order2_evolves_refl. }
  assert (Hnone_o : forall k, orders db !! k = None ->
             <[id := Order2.set_status_updatedAt status now o]> (orders db) !! k = None).
  { intros k Hk. destruct (decide (k = id)) as [-> | Hne]; [congruence|].
    now rewrite lookup_insert_ne by congruence. }
  simpl in Hcases.
  destruct Hcases as [[_ ->] | (k0 & d0 & Hk0 & _ & ->)].
  { simpl. repeat split; eauto using delivery_evolves_refl. }
  destruct (deliverySaveFails f); simpl.
  { repeat split; eauto using delivery_evolves_refl. }
  repeat split; auto.
  - intros k d Hk. destruct (decide (k = k0)) as [-> | Hne].
    + rewrite lookup_insert_eq. eexists. split; [reflexivity|].
      rewrite Hk0 in Hk. injection Hk as <-. apply sync_delivery_evolves.
    + rewrite lookup_insert_ne by congruence. eauto using delivery_evolves_refl.
  - intros k Hk. destruct (decide (k = k0)) as [-> | Hne]; [congruence|].
    now rewrite lookup_insert_ne by congruence.
Qed.

(** X8: status updates never create, delete or re-link a document.  Over
    any sequence of PUT /api/orders/:id/status requests, with any
    failures, every Delivery stays under its key with its order and its
    driver, and with its start time once that is set; every Order stays
    under its key with its number, customer, driver, restaurant and total;
    no Delivery or Order appears; accounts and restaurants are untouched. *)
Theorem status_runs_keep_documents rs db :
  users (run rs db) = users db /\ restaurants (run rs db) = restaurants db
  /\ (forall k d, deliveries db !! k = Some d ->
        exists d', deliveries (run rs db) !! k = Some d' /\ delivery_evolves d d')
  /\ (forall k, deliveries db !! k = None -> deliveries (run rs db) !! k = None)
  /\ (forall k o, orders db !! k = Some o ->
        exists o', orders (run rs db) !! k = Some o' /\ order2_evolves o o')
  /\ (forall k, orders db !! k = None -> orders (run rs db) !! k = None).
Proof.
  revert db. induction rs as [|r rs IH]; intros db; simpl.
  { repeat split; eauto using delivery_evolves_refl, order2_evolves_refl. }
  destruct (updateStatus_step (at_time r) (faults r) (order_id r) (new_status r) db)
    as (Hu & Hr & Hd & Hdn & Ho & Hon).
  destruct (IH (updateStatus (at_time r) (faults r) (order_id r) (new_status r) db).2)
    as (Hu' & Hr' & Hd' & Hdn' & Ho' & Hon').
  split; [congruence|]. split; [congruence|].
  split; [|split; [|split]].
  - intros k d Hk. destruct (Hd k d Hk) as (d1 & Hk1 & He1).
    destruct (Hd' k d1 Hk1) as (d2 & Hk2 & He2).
    eauto using delivery_evolves_trans.
  - auto.
  - intros k o Hk. destruct (Ho k o Hk) as (o1 & Hk1 & He1).
    destruct (Ho' k o1 Hk1) as (o2 & Hk2 & He2).
    eauto using order2_evolves_trans.
  - auto.
Qed.


(** Order [o1] is picked up, cancelled and delivered, the second request
    losing its Delivery save: the Delivery keeps its key, order, driver
    and start time. *)
Lemma status_runs_keep_documents_witness :
  let requests :=
    [ {| at_time := 60000; faults := no_faults; order_id := "o1";
         new_status := Some "picked_up" |};
      {| at_time := 70000; faults := saveFails; order_id := "o1";
         new_status := Some "cancelled" |};
      {| at_time := 95000; faults := no_faults; order_id := "o1";
         new_status := Some "delivered" |} ] in
  exists d',
    deliveries (run requests confirmed) !! "dl1" = Some d'
    /\ Delivery.order d' = "o1" /\ Delivery.driver d' = "d1".
Proof.
  intros requests.
  destruct (status_runs_keep_documents requests confirmed) as (_ & _ & Hd & _).
  destruct (Hd "dl1" (delivery "assigned" None None) eq_refl) as (d' & Hk & Ho & Hdr & _).
  exists d'. auto.
Defined.

(** Replacing a Delivery by one of the same order keeps the index. *)
Lemma unique_order_index_insert (c : gmap ObjectId Delivery.t) k d d' :
  unique_order_index c -> c !! k = Some d ->
  Delivery.order d' = Delivery.order d ->
  unique_order_index (<[k := d']> c).
Proof.
  intros Huniq Hk Hsame k1 k2 d1 d2 H1 H2 Heq.
  apply lookup_insert_Some in H1 as [[<- <-] | [Hne1 H1]];
    apply lookup_insert_Some in H2 as [[<- <-] | [Hne2 H2]].
  - reflexivity.
  - symmetry. eapply Huniq; eauto. congruence.
  - eapply Huniq; eauto. congruence.
  - eapply Huniq; eauto.
Qed.

(** X9: an order picked up at [t1] and delivered at [t2], its Delivery
    not started before: the Delivery ends up completed, started at [t1],
    ended at [t2], with the rounded minutes between the two as its
    duration, and the Order is delivered. *)
Theorem pickup_then_delivered t1 t2 id db o k d :
  unique_order_index (deliveries db) ->
  orders db !! id = Some o ->
  deliveries db !! k = Some d -> Delivery.order d = id ->
  Delivery.startTime d = None ->
  let db1 := (updateStatus t1 no_faults id (Some "picked_up") db).2 in
  let db2 := (updateStatus t2 no_faults id (Some "delivered") db1).2 in
  exists d',
    deliveries db2 !! k = Some d'
    /\ Delivery.status d' = "completed"
    /\ Delivery.startTime d' = Some t1
    /\ Delivery.endTime d' = Some t2
    /\ Delivery.actualDuration d' = Some (Delivery.durationMinutes t1 t2)
    /\ Order2.status <$> orders db2 !! id = Some "delivered".
Proof.
  intros Huniq Ho Hk Hid Hstart db1 db2. subst db2 db1.
  rewrite (updateStatus_with_delivery t1 no_faults id "picked_up" db o k d
             eq_refl Huniq eq_refl Ho Hk Hid).
  cbn [deliverySaveFails no_faults snd].
  set (d1 := Delivery.pre_save t1 (sync_delivery "picked_up" t1 d)).
  assert (Hd1 : Delivery.order d1 = id).
  { destruct (synced_delivery_fields "picked_up" t1 d) as (_ & _ & _ & Hord & _).
    fold d1 in Hord. congruence. }
  erewrite (updateStatus_with_delivery t2 no_faults id "delivered" _ _ k d1 eq_refl);
    [ | | reflexivity | | | exact Hd1 ].
  - cbn [deliverySaveFails no_faults snd deliveries set_deliveries set_orders orders].
    rewrite !lookup_insert_eq. eexists. split; [reflexivity|].
    subst d1. clear -Hstart. unfold sync_delivery, Delivery.pre_save.
    destruct d as [ord drv st start [e|] dur upd]; simpl in Hstart; subst start;
      simpl; auto.
  - cbn [deliveries set_deliveries set_orders].
    eapply unique_order_index_insert; eauto. congruence.
  - cbn [orders set_deliveries set_orders]. apply lookup_insert_eq.
  - cbn [deliveries set_deliveries set_orders]. apply lookup_insert_eq.
Qed.


(** Picked up at 60000 ms and delivered at 210000 ms: 150 seconds, which
    round to 3 minutes ([Math.round(2.5)] is 3). *)
Lemma pickup_then_delivered_witness :
  exists d',
    deliveries
      (updateStatus 210000 no_faults "o1" (Some "delivered")
         (updateStatus 60000 no_faults "o1" (Some "picked_up") confirmed).2).2 !! "dl1"
    = Some d'
    /\ Delivery.startTime d' = Some 60000
    /\ Delivery.endTime d' = Some 210000
    /\ Delivery.actualDuration d' = Some 3%float.
Proof.
  destruct (pickup_then_delivered 60000 210000 "o1" confirmed
              (order2 (Some "d1") "confirmed") "dl1" (delivery "assigned" None None))
    as (d' & Hk & _ & Hs & He & Hdur & _);
    [apply unique_order_index_singleton | reflexivity | reflexivity | reflexivity
    | reflexivity |].
  exists d'. rewrite Hdur. auto.
Defined.

(** What the synchronisation writes. *)
Lemma synced_delivery_written status now d :
  let d' := Delivery.pre_save now (sync_delivery status now d) in
  In (Delivery.status d') ["completed"; "ongoing"; "assigned"]
  /\ duration_consistent d'
  /\ Delivery.updatedAt d' = now.
Proof.
  unfold sync_delivery, Delivery.pre_save, duration_consistent.
  destruct (String.eqb status "delivered");
    [|destruct (includes ["picked_up"; "in_transit"] status)];
    destruct d as [ord drv st [s|] [e|] dur upd]; simpl;
    (split; [tauto|]); (split; [|reflexivity]);
    intros s' e' Hs He; congruence.
Qed.

(** X10: every Delivery that a status update writes is 'completed',
    'ongoing' or 'assigned' (never 'cancelled', whatever the new Order
    status), carries the time of the request as [updatedAt], and has an
    [actualDuration] that agrees with its two timestamps whenever both are
    set.  A Delivery found in the store after a request is one of these or
    was there before. *)
Theorem written_delivery_sound now f id st db k d' :
  deliveries (updateStatus now f id st db).2 !! k = Some d' ->
  deliveries db !! k = Some d'
  \/ (In (Delivery.status d') ["completed"; "ongoing"; "assigned"]
      /\ duration_consistent d'
      /\ Delivery.updatedAt d' = now).
Proof.
  destruct (updateStatus_cases now f id st db)
    as [(response & -> & _) | (status & o & _ & _ & _ & Ho & Hcases)]; [auto|].
  simpl in Hcases.
  destruct Hcases as [[_ ->] | (k0 & d0 & Hk0 & _ & ->)]; [auto|].
  destruct (deliverySaveFails f); [auto|]. simpl.
  intros [[<- <-] | [_ Hold]]%lookup_insert_Some; [right | now left].
  apply synced_delivery_written.
Qed.

(** A completed Delivery whose order is cancelled is saved 'assigned'. *)
Lemma written_delivery_sound_witness :
  exists d',
    deliveries (updateStatus 300000 no_faults "o1" (Some "cancelled") delivered).2 !! "dl1"
    = Some d'
    /\ Delivery.status d' = "assigned"
    /\ In (Delivery.status d') ["completed"; "ongoing"; "assigned"].
Proof.
  destruct (deliveries (updateStatus 300000 no_faults "o1" (Some "cancelled") delivered).2
              !! "dl1") as [d'|] eqn:Hk; [|vm_compute in Hk; discriminate].
  exists d'. split; [reflexivity|].
  destruct (written_delivery_sound 300000 no_faults "o1" (Some "cancelled") delivered
              "dl1" d' Hk) as [Hold | (Hin & _)].
  - vm_compute in Hk. vm_compute in Hold. congruence.
  - split; [|exact Hin]. vm_compute in Hk. injection Hk as <-. reflexivity.
Defined.



(** The status of the table. *)
Lemma synced_status_nonempty status now d :
  String.eqb (Delivery.status (Delivery.pre_save now (sync_delivery status now d))) ""
  = false.
Proof.
  destruct (synced_delivery_written status now d) as (Hin & _).
  simpl in Hin. destruct Hin as [<- | [<- | [<- | []]]]; reflexivity.
Qed.

(** X12: what GET /api/orders/:id reports as [deliveryStatus] after a
    successful status update.  With no Delivery of the order it is the new
    Order status, and the deliveries are untouched; with a Delivery it is
    the Delivery status of the table, so that a cancelled order with a
    Delivery is reported as 'assigned'. *)
Theorem reported_deliveryStatus_after_update now id status db o :
  includes validStatuses status = true ->
  orders db !! id = Some o ->
  let db' := (updateStatus now no_faults id (Some status) db).2 in
  ((forall k d, deliveries db !! k = Some d -> Delivery.order d <> id) ->
   reported_deliveryStatus id db' = Some status /\ deliveries db' = deliveries db)
  /\ (forall k d,
       unique_order_index (deliveries db) ->
       deliveries db !! k = Some d -> Delivery.order d = id ->
       reported_deliveryStatus id db'
       = Some (if String.eqb status "delivered" then "completed"
               else if includes ["picked_up"; "in_transit"] status then "ongoing"
               else "assigned")).
Proof.
  intros Hvalid Ho db'. subst db'. split.
  - intros Hnone.
    assert (Hfind : findOne (for_order id) (deliveries db) = None).
    { destruct (findOne (for_order id) (deliveries db)) as [[k d]|] eqn:E; [|reflexivity].
      destruct (findOne_Some _ _ _ _ E) as [Hk Hq%String.eqb_eq].
      now destruct (Hnone k d Hk). }
    unfold updateStatus. rewrite Hvalid. simpl negb. simpl default. cbv iota.
    cbn [orderWriteFails no_faults]. rewrite Ho. cbn [deliveries set_orders].
    rewrite Hfind. cbn [snd].
    unfold reported_deliveryStatus. cbn [orders deliveries set_orders].
    rewrite lookup_insert_eq, Hfind. auto.
  - intros k d Huniq Hk Hid.
    rewrite (updateStatus_with_delivery now no_faults id status db o k d
               eq_refl Huniq Hvalid Ho Hk Hid).
    cbn [deliverySaveFails no_faults snd].
    unfold reported_deliveryStatus.
    cbn [orders deliveries set_deliveries set_orders].
    rewrite lookup_insert_eq.
    set (d' := Delivery.pre_save now (sync_delivery status now d)).
    destruct (synced_delivery_fields status now d) as (Hst & _ & _ & Hord & _).
    fold d' in Hst, Hord.
    rewrite (findOne_unique (<[k := d']> (deliveries db)) id k d').
    + unfold d'. rewrite synced_status_nonempty. fold d'. now rewrite Hst.
    + eapply unique_order_index_insert; eauto.
    + apply lookup_insert_eq.
    + congruence.
Qed.

Lemma reported_deliveryStatus_after_update_witness :
  reported_deliveryStatus "o1"
    (updateStatus 300000 no_faults "o1" (Some "cancelled") delivered).2
  = Some "assigned"
  /\ reported_deliveryStatus "o1"
       (updateStatus 300000 no_faults "o1" (Some "cancelled") undelivered).2
     = Some "cancelled".
Proof.
  split.
  - destruct (reported_deliveryStatus_after_update 300000 "o1" "cancelled" delivered
                (order2 (Some "d1") "delivered") eq_refl eq_refl) as [_ Hwith].
    apply (Hwith "dl1" (delivery "completed" (Some 1000) (Some 2000)));
      [apply unique_order_index_singleton | reflexivity | reflexivity].
  - destruct (reported_deliveryStatus_after_update 300000 "o1" "cancelled" undelivered
                (order2 None "pending") eq_refl eq_refl) as [Hwithout _].
    apply Hwithout. intros k d Hk. vm_compute in Hk. discriminate.
Defined.

End StatusRunFacts.

(** ** First orders routes module: snapshots, history, creation, deletion *)

Module OrdersRoutesMoreFacts.
Import JsNumber OrdersRoutes Evolution QueryFacts NumberFacts OrdersRoutesFacts.
Import Examples MoreExamples.
Local Open Scope Z_scope.










(** X14: the status history records status updates and nothing else.  An
    accepted status update appends exactly one entry, the new status with
    the time of the request, after the earlier entries; a driver
    assignment sets the status to 'assigned' and leaves the history as it
    was, so that the assignment never shows in it. *)
Theorem history_records_status_updates_only casts now id db o :
  orders db !! id = Some o ->
  (forall status,
      includes validStatuses status = true ->
      exists o',
        orders (updateStatus casts now id (Some status) db).2 !! id = Some o'
        /\ Order.statusHistory o'
           = Order.statusHistory o
             ++ [{| Order.entry_status := status; Order.timestamp := now |}]
        /\ Order.updatedAt o' = now)
  /\ (forall driverId account,
      driverId <> "" ->
      users db !! driverId = Some account -> User.userType account = "driver" ->
      exists o',
        orders (assignDriver casts now id (Some driverId) db).2 !! id = Some o'
        /\ Order.status o' = "assigned"
        /\ Order.statusHistory o' = Order.statusHistory o
        /\ Order.updatedAt o' = now).
Proof.
  intros Ho. split.
  - intros status Hvalid. unfold updateStatus, findById.
    rewrite (validStatuses_nonempty status Hvalid), Hvalid, Ho. simpl.
    eexists. rewrite lookup_insert_eq. auto.
  - intros driverId account Hid%String.eqb_neq Hacc Hrole%String.eqb_eq.
    unfold assignDriver, findById. rewrite Hid, Hacc, Hrole, Ho. simpl.
    eexists. rewrite lookup_insert_eq. auto.
Qed.

(** The basket is assigned to driver [d1]: its status changes and its
    history stays empty. *)
Lemma history_records_status_updates_only_witness :
  exists o',
    orders (assignDriver hex24 1700000060000 o1_id (Some d1_id) db1_ordered).2 !! o1_id = Some o'
    /\ Order.status o' = "assigned"
    /\ Order.statusHistory o' = [].
Proof.
  destruct (orders db1_ordered !! o1_id) as [o|] eqn:Ho; [|vm_compute in Ho; discriminate].
  destruct (history_records_status_updates_only hex24 1700000060000 o1_id db1_ordered o Ho)
    as [_ Hassign].
  destruct (Hassign d1_id sipho) as (o' & Hk & Hs & Hh & _);
    [discriminate | reflexivity | reflexivity |].
  exists o'. rewrite Hh. vm_compute in Ho. injection Ho as <-. auto.
Defined.



(** X16: the fields of a created Order that the request leaves out are
    defaulted, not refused: with no [totalAmount] (a path the schema
    marks as required) the Order is created with a total of 0, and so for
    the subtotal, the delivery fee and the tax; with no payment method it
    is 'cash'.  The Order starts pending, with no driver and an empty
    history, created and updated at the time of the request. *)
Theorem createOrder_defaults casts now newId body db response db' :
  createOrder casts now newId body db = (response, db') -> code response = 201 ->
  exists o,
    orders db' !! newId = Some o
    /\ (totalAmount body = None -> Order.totalAmount o = 0%float)
    /\ (subtotal body = None -> Order.subtotal_ o = 0%float)
    /\ (deliveryFee body = None -> Order.deliveryFee o = 0%float)
    /\ (tax body = None -> Order.tax o = 0%float)
    /\ (missing (paymentMethod body) = true -> Order.paymentMethod o = "cash")
    /\ Order.status o = "pending" /\ Order.driver o = None
    /\ Order.statusHistory o = []
    /\ Order.createdAt o = now /\ Order.updatedAt o = now
    /\ Order.orderNumber o
       = make_orderNumber now (countDocuments (fun _ => true) (orders db)).
Proof.
  intros Hrun Hcode.
  destruct (createOrder_cases casts now newId body db)
    as [(response' & Hfail & Hcode') | (u & r & its & _ & _ & _ & _ & Hcreated)].
  { rewrite Hrun in Hfail. congruence. }
  rewrite Hrun in Hcreated. injection Hcreated as _ ->.
  eexists. simpl. rewrite lookup_insert_eq. split; [reflexivity|].
  cbn [new_order Order.totalAmount Order.subtotal_ Order.deliveryFee Order.tax
       Order.paymentMethod Order.status Order.driver Order.statusHistory
       Order.createdAt Order.updatedAt Order.orderNumber].
  repeat split; try (intros ->; reflexivity).
Qed.

(** The basket ordered with no total is stored with a total of 0. *)
Lemma createOrder_defaults_witness :
  exists o,
    orders (createOrder hex24 1700000000000 o1_id bareBody db1).2 !! o1_id = Some o
    /\ Order.totalAmount o = 0%float
    /\ Order.paymentMethod o = "cash".
Proof.
  destruct (createOrder_defaults hex24 1700000000000 o1_id bareBody db1
              (createOrder hex24 1700000000000 o1_id bareBody db1).1
              (createOrder hex24 1700000000000 o1_id bareBody db1).2)
    as (o & Hk & Htotal & _ & _ & _ & Hpay & _);
    [now destruct (createOrder hex24 _ _ _ _) | reflexivity |].
  exists o. auto.
Defined.


(** X17: POST /api/orders is refused with a 500, and stores nothing,
    when the [_id] drawn for the Order is taken or when an Order already
    carries the number that the route builds from the clock and the count
    of the orders (the unique indexes on [_id] and [orderNumber]). *)
Theorem createOrder_duplicate casts now newId body db u r its account :
  user body = Some u -> u <> "" -> restaurant body = Some r -> r <> "" ->
  items body = Some its -> its <> [] ->
  users db !! u = Some account ->
  is_Some (orders db !! newId)
  \/ (exists k o,
        orders db !! k = Some o
        /\ Order.orderNumber o
           = make_orderNumber now (countDocuments (fun _ => true) (orders db))) ->
  createOrder casts now newId body db = (json 500 false "Failed to create order", db).
Proof.
  intros Hu Hu0%String.eqb_neq Hr Hr0%String.eqb_neq Hits Hits0 Hacc Hdup.
  unfold createOrder. rewrite Hu, Hr, Hits, Hu0, Hr0.
  destruct its as [|i its]; [congruence|]. simpl length. simpl orb. cbv iota.
  rewrite (findById_found casts u (users db) account Hacc). unfold save_new.
  destruct (Order.validate casts _); [|reflexivity]. simpl andb.
  destruct Hdup as [[o Hk] | (k & o & Hk & Hnum)].
  - rewrite bool_decide_eq_false_2 by congruence. reflexivity.
  - destruct (bool_decide _); [|reflexivity]. simpl andb.
    cbn [Order.orderNumber new_order].
    match goal with
    | |- context [Nat.eqb (countDocuments ?q (orders db)) 0] =>
        assert (Hpos : (0 < countDocuments q (orders db))%nat)
    end.
    { apply countDocuments_pos. exists k, o. split; [exact Hk|].
      rewrite Hnum. apply String.eqb_refl. }
    destruct (Nat.eqb_spec (countDocuments
                (fun o' => String.eqb (Order.orderNumber o')
                   (make_orderNumber now (countDocuments (fun _ => true) (orders db))))
                (orders db)) 0) as [H0 | _]; [lia | reflexivity].
Qed.


(** After a deletion the count of the orders is 1 again, and the next
    order of the same millisecond would be numbered 2, as the order that
    is left: it is refused. *)
Lemma createOrder_duplicate_witness :
  createOrder hex24 1700000000000 o3_id basketBody db1_first_deleted
  = (json 500 false "Failed to create order", db1_first_deleted).
Proof.
  destruct (orders db1_first_deleted !! o2_id) as [o|] eqn:Ho;
    [|vm_compute in Ho; discriminate].
  apply (createOrder_duplicate hex24 1700000000000 o3_id basketBody db1_first_deleted
           c1_id r1_id basket thandi).
  - reflexivity.
  - discriminate.
  - reflexivity.
  - discriminate.
  - reflexivity.
  - discriminate.
  - vm_compute. reflexivity.
  - right. exists o2_id, o. split; [exact Ho|].
    vm_compute in Ho. injection Ho as <-. vm_compute. reflexivity.
Defined.

Lemma set_orders_same {O} (db : Db O) : set_orders (orders db) db = db.
Proof. now destruct db. Qed.

(** X18: creating an Order and deleting it again leaves the store exactly
    as it was before the creation. *)
Theorem create_then_delete casts now newId body db response db' :
  createOrder casts now newId body db = (response, db') -> code response = 201 ->
  deleteOrder casts newId db' = (json 200 true "Order deleted successfully", db).
Proof.
  intros Hrun Hcode.
  destruct (createOrder_cases casts now newId body db)
    as [(response' & Hfail & Hcode') | (u & r & its & _ & _ & _ & Hfresh & Hcreated)].
  { rewrite Hrun in Hfail. congruence. }
  rewrite Hrun in Hcreated. injection Hcreated as _ ->.
  unfold deleteOrder, findById. cbn [orders set_orders]. rewrite lookup_insert_eq.
  rewrite delete_insert_id by exact Hfresh.
  unfold set_orders at 1. cbn [users orders deliveries restaurants set_orders].
  now destruct db.
Qed.

Lemma create_then_delete_witness :
  deleteOrder hex24 o1_id db1_ordered = (json 200 true "Order deleted successfully", db1).
Proof.
  apply (create_then_delete hex24 1700000000000 o1_id basketBody db1
           (createOrder hex24 1700000000000 o1_id basketBody db1).1).
  - unfold db1_ordered. now destruct (createOrder hex24 _ _ _ _).
  - reflexivity.
Defined.



(** X20: a second driver assignment overwrites the first: after driver
    [d1] and then driver [d2] are assigned, the Order names [d2], is
    'assigned', and its history holds no trace of either. *)
Theorem reassignment_overwrites casts t1 t2 id d1 d2 db a1 a2 o :
  d1 <> "" -> d2 <> "" ->
  users db !! d1 = Some a1 -> User.userType a1 = "driver" ->
  users db !! d2 = Some a2 -> User.userType a2 = "driver" ->
  orders db !! id = Some o ->
  exists o',
    orders (assignDriver casts t2 id (Some d2) (assignDriver casts t1 id (Some d1) db).2).2 !! id
    = Some o'
    /\ Order.driver o' = Some d2
    /\ Order.status o' = "assigned"
    /\ Order.statusHistory o' = Order.statusHistory o
    /\ Order.updatedAt o' = t2.
Proof.
  intros H1%String.eqb_neq H2%String.eqb_neq Ha1 Hr1%String.eqb_eq Ha2 Hr2%String.eqb_eq Ho.
  unfold assignDriver at 2. unfold findById. rewrite H1, Ha1, Hr1, Ho. cbn [negb snd].
  unfold assignDriver, findById. rewrite H2. cbn [users orders set_orders].
  rewrite Ha2, Hr2, lookup_insert_eq. cbn [negb snd orders set_orders].
  rewrite lookup_insert_eq. eexists. split; [reflexivity|]. simpl. auto.
Qed.

Lemma reassignment_overwrites_witness :
  exists o',
    orders (assignDriver hex24 1700000090000 o1_id (Some d2_id)
              (assignDriver hex24 1700000060000 o1_id (Some d1_id) db1_two_drivers).2).2 !! o1_id
    = Some o'
    /\ Order.driver o' = Some d2_id.
Proof.
  destruct (orders db1_two_drivers !! o1_id) as [o|] eqn:Ho;
    [|vm_compute in Ho; discriminate].
  destruct (reassignment_overwrites hex24 1700000060000 1700000090000 o1_id d1_id d2_id
              db1_two_drivers sipho lerato o)
    as (o' & Hk & Hd & _); try reflexivity; try discriminate.
  - exact Ho.
  - exists o'. auto.
Defined.

End OrdersRoutesMoreFacts.

(** ** Accounts: what a DELETE removes, and the counts of the GET routes *)

Module AccountsMoreFacts.
Import AccountsRoutes AccountStats QueryFacts AccountsRoutesFacts Examples MoreExamples.

(** The store after each DELETE: the same, or the same less the account
    (the restaurant) of the request. *)
Lemma deleteCustomer_cases id db :
  (deleteCustomer id db).2 = db
  \/ (exists a, users db !! id = Some a /\ User.userType a = "customer"
                /\ (deleteCustomer id db)
                   = (json 200 true "Customer deleted successfully",
                      set_users (delete id (users db)) db)).
Proof.
  unfold deleteCustomer. destruct (users db !! id) as [a|]; [|now left].
  destruct (String.eqb (User.userType a) "customer") eqn:Hrole; simpl; [|now left].
  destruct (0 <? _)%nat; [now left|].
  right. exists a. apply String.eqb_eq in Hrole. auto.
Qed.

Lemma deleteDriver_cases id db :
  (deleteDriver id db).2 = db
  \/ (exists a, users db !! id = Some a /\ User.userType a = "driver"
                /\ (deleteDriver id db)
                   = (json 200 true "Driver deleted successfully",
                      set_users (delete id (users db)) db)).
Proof.
  unfold deleteDriver. destruct (users db !! id) as [a|]; [|now left].
  destruct (String.eqb (User.userType a) "driver") eqn:Hrole; simpl; [|now left].
  destruct (_ || _); [now left|].
  right. exists a. apply String.eqb_eq in Hrole. auto.
Qed.



(** X22: no DELETE cascades.  The three routes leave the orders and the
    deliveries as they are; so an Order of a deleted customer stays in
    the store, naming an account that is no longer there. *)
Theorem deletes_do_not_cascade id db :
  (orders (deleteCustomer id db).2 = orders db
   /\ deliveries (deleteCustomer id db).2 = deliveries db
   /\ restaurants (deleteCustomer id db).2 = restaurants db)
  /\ (orders (deleteDriver id db).2 = orders db
      /\ deliveries (deleteDriver id db).2 = deliveries db
      /\ restaurants (deleteDriver id db).2 = restaurants db)
  /\ (orders (deleteRestaurant id db).2 = orders db
      /\ deliveries (deleteRestaurant id db).2 = deliveries db
      /\ users (deleteRestaurant id db).2 = users db)
  /\ (forall k o,
       orders db !! k = Some o -> Order2.customer o = id ->
       success (deleteCustomer id db).1 = true ->
       orders (deleteCustomer id db).2 !! k = Some o
       /\ users (deleteCustomer id db).2 !! Order2.customer o = None).
Proof.
  split; [|split; [|split]].
  - destruct (deleteCustomer_cases id db) as [-> | (a & _ & _ & ->)]; auto.
  - destruct (deleteDriver_cases id db) as [-> | (a & _ & _ & ->)]; auto.
  - unfold deleteRestaurant. destruct (restaurants db !! id); auto.
  - intros k o Hk Hc. unfold deleteCustomer.
    destruct (users db !! id) as [a|]; [|discriminate].
    destruct (String.eqb (User.userType a) "customer"); simpl; [|discriminate].
    destruct (0 <? _)%nat; simpl; [discriminate|].
    intros _. rewrite Hc. split; [exact Hk | apply lookup_delete_eq].
Qed.

(** Customer [c1], whose only order is delivered, is deleted; the order
    stays. *)
Lemma deletes_do_not_cascade_witness :
  orders (deleteCustomer "c1" delivered).2 !! "o1" = Some (order2 (Some "d1") "delivered")
  /\ users (deleteCustomer "c1" delivered).2 !! "c1" = None.
Proof.
  destruct (deletes_do_not_cascade "c1" delivered) as (_ & _ & _ & Hdangling).
  apply (Hdangling "o1" (order2 (Some "d1") "delivered")); reflexivity.
Defined.

(** The length of a filtered list, one element at a time. *)
Lemma length_find_cons {A} (query : A -> bool) (kd : ObjectId * A) l :
  length (filter (fun kd => query kd.2 = true) (kd :: l))
  = (Nat.b2n (query kd.2) + length (filter (fun kd => query kd.2 = true) l))%nat.
Proof.
  rewrite filter_cons. destruct (decide (query kd.2 = true)) as [-> | Hq]; [reflexivity|].
  apply not_true_is_false in Hq. now rewrite Hq.
Qed.

Lemma count_split {A} (q q1 q2 q3 : A -> bool) (l : list (ObjectId * A)) :
  (forall kd, kd ∈ l ->
     Nat.b2n (q kd.2) = (Nat.b2n (q1 kd.2) + Nat.b2n (q2 kd.2) + Nat.b2n (q3 kd.2))%nat) ->
  length (filter (fun kd => q kd.2 = true) l)
  = (length (filter (fun kd => q1 kd.2 = true) l)
     + length (filter (fun kd => q2 kd.2 = true) l)
     + length (filter (fun kd => q3 kd.2 = true) l))%nat.
Proof.
  induction l as [|kd l IH]; intros Hsplit; [reflexivity|].
  rewrite !length_find_cons, IH, (Hsplit kd).
  - lia.
  - left.
  - intros kd' Hin. apply Hsplit. now right.
Qed.

Lemma count_le {A} (q q1 q2 q3 : A -> bool) (l : list (ObjectId * A)) :
  (forall kd : ObjectId * A,
     (Nat.b2n (q1 kd.2) + Nat.b2n (q2 kd.2) + Nat.b2n (q3 kd.2) <= Nat.b2n (q kd.2))%nat) ->
  (length (filter (fun kd => q1 kd.2 = true) l)
   + length (filter (fun kd => q2 kd.2 = true) l)
   + length (filter (fun kd => q3 kd.2 = true) l)
   <= length (filter (fun kd => q kd.2 = true) l))%nat.
Proof.
  intros Hle. induction l as [|kd l IH]; [reflexivity|].
  rewrite !length_find_cons. specialize (Hle kd). lia.
Qed.

(** X23: the order counts that the customers routes report.  The
    delivered, the active and the cancelled orders of a customer never
    add up to more than the customer's orders, and add up to exactly
    their number when every order of the customer has a status of the
    schema's enum: each such order is counted once. *)
Theorem customer_counts_partition id (c : gmap ObjectId Order2.t) :
  (completedOrders id c + activeOrders id c + cancelledOrders id c <= totalOrders id c)%nat
  /\ ((forall k o, c !! k = Some o -> Order2.customer o = id ->
         In (Order2.status o) statusEnum) ->
      totalOrders id c
      = (completedOrders id c + activeOrders id c + cancelledOrders id c)%nat).
Proof.
  unfold totalOrders, completedOrders, activeOrders, cancelledOrders, countDocuments, find.
  split.
  - apply (count_le (fun o => String.eqb (Order2.customer o) id)
             (fun o => String.eqb (Order2.customer o) id
                       && String.eqb (Order2.status o) "delivered")
             (fun o => String.eqb (Order2.customer o) id
                       && includes ["pending"; "confirmed"; "picked_up"; "in_transit"]
                            (Order2.status o))
             (fun o => String.eqb (Order2.customer o) id
                       && String.eqb (Order2.status o) "cancelled")).
    intros [k o]. cbn [snd].
    destruct (String.eqb (Order2.customer o) id); cbn [andb Nat.b2n]; [|lia].
    destruct (String.eqb (Order2.status o) "delivered") eqn:E1.
    { apply String.eqb_eq in E1. rewrite E1. simpl. lia. }
    destruct (String.eqb (Order2.status o) "cancelled") eqn:E2.
    { apply String.eqb_eq in E2. rewrite E2. simpl. lia. }
    destruct (includes _ (Order2.status o)); simpl; lia.
  - intros Henum.
    apply (count_split (fun o => String.eqb (Order2.customer o) id)
                (fun o => String.eqb (Order2.customer o) id
                          && String.eqb (Order2.status o) "delivered")
                (fun o => String.eqb (Order2.customer o) id
                          && includes ["pending"; "confirmed"; "picked_up"; "in_transit"]
                                  (Order2.status o))
                (fun o => String.eqb (Order2.customer o) id
                          && String.eqb (Order2.status o) "cancelled")).
    intros [k o] Hin%elem_of_map_to_list. simpl.
    destruct (String.eqb (Order2.customer o) id) eqn:Hc; simpl; [|reflexivity].
    apply String.eqb_eq in Hc.
    specialize (Henum k o Hin Hc). simpl in Henum.
    destruct Henum as [<- | [<- | [<- | [<- | [<- | [<- | []]]]]]]; reflexivity.
Qed.

Lemma customer_counts_partition_witness :
  totalOrders "c1" (orders delivered) = 1%nat
  /\ totalOrders "c1" (orders delivered)
     = (completedOrders "c1" (orders delivered) + activeOrders "c1" (orders delivered)
        + cancelledOrders "c1" (orders delivered))%nat.
Proof.
  split; [reflexivity|].
  destruct (customer_counts_partition "c1" (orders delivered)) as [_ Heq].
  apply Heq. intros k o Hk _.
  unfold delivered, db2 in Hk. cbn [orders] in Hk.
  apply lookup_insert_Some in Hk as [[_ <-] | [_ Hk]]; [|now rewrite lookup_empty in Hk].
  simpl. tauto.
Defined.

(** X24: the two delivery counts that GET /api/drivers reports for a
    driver.  Both are zero exactly when the driver has neither a
    delivered order nor a completed delivery; when one of the two
    underlying counts is zero both report the other one; when neither is
    zero, [totalDeliveries] is the count of the delivered orders and
    [completedDeliveries] the count of the completed deliveries, which
    need not agree. *)
Theorem driver_reported_counts id db :
  let o := driver_completedOrders id (orders db) in
  let d := driver_completedDeliveries id (deliveries db) in
  (reported_totalDeliveries id db = 0%nat <-> o = 0%nat /\ d = 0%nat)
  /\ (reported_completedDeliveries id db = 0%nat <-> o = 0%nat /\ d = 0%nat)
  /\ (o = 0%nat ->
      reported_totalDeliveries id db = d /\ reported_completedDeliveries id db = d)
  /\ (d = 0%nat ->
      reported_totalDeliveries id db = o /\ reported_completedDeliveries id db = o)
  /\ (o <> 0%nat -> d <> 0%nat ->
      reported_totalDeliveries id db = o /\ reported_completedDeliveries id db = d).
Proof.
  intros o d. unfold reported_totalDeliveries, reported_completedDeliveries, count_or.
  fold o d. clearbody o d.
  destruct o as [|o], d as [|d]; simpl; repeat split; intros; lia.
Qed.

Lemma driver_reported_counts_witness :
  reported_totalDeliveries "d1" delivered = 1%nat
  /\ reported_completedDeliveries "d1" delivered = 1%nat.
Proof.
  destruct (driver_reported_counts "d1" delivered) as (_ & _ & _ & _ & Hboth).
  apply Hboth; intros H; vm_compute in H; discriminate H.
Defined.

End AccountsMoreFacts.
